(** * AFJP crypto fund: the Move contracts of the token ledger, the
  burn-to-mint exchange, the staking pool and the vesting pool

  The four Move modules [afjp_token], [juventud_token], [afjp_staking] and
    [afjp_vesting] are embedded as functions over an explicit global
  storage.  A Move transaction either commits its writes or aborts and
  leaves the storage as it was, so every entry function is a computation
  in a state-and-error monad whose failure carries no state. *)

From stdpp Require Import gmap list.
From Stdlib Require Import ZArith Lia.

Open Scope Z_scope.

(** ** Machine integers and aborts *)

Abbreviation address := N.

Definition MAX_U64 : Z := 18446744073709551615.


(** The module an abort code belongs to: the codes of the four modules
  overlap ([E_NOT_INITIALIZED] is 3 in the token and 1 in the others). *)
Inductive location :=
| at_afjp_token
| at_juventud_token
| at_afjp_staking
| at_afjp_vesting
| at_coin.

Inductive error :=
| Abort (loc : location) (code : Z)
| ARITHMETIC_ERROR
| MISSING_DATA
| RESOURCE_ALREADY_EXISTS.

Inductive result (A : Type) :=
| Ok (a : A)
| Err (e : error).
Arguments Ok {A} a.
Arguments Err {A} e.

(** ** Global storage *)

Module Storage.

Module afjp_token.
Record TokenInfo := {
  total_supply : Z;
  burned_amount : Z;
  admin : address;
}.
Variant MintEvent := mint_event (amount : Z) (recipient : address) (timestamp : Z).
Variant BurnEvent := burn_event (amount : Z) (burner : address) (timestamp : Z).
Variant TransferEvent :=
  transfer_event (amount : Z) (from to : address) (timestamp : Z).
Record TokenEvents := {
  mint_events : list MintEvent;
  burn_events : list BurnEvent;
  transfer_events : list TransferEvent;
}.
    (** [TokenCapabilities] holds the three coin capabilities and no data:
  only where it is published matters. *)
Record Store := {
  caps : gmap address unit;
  info : gmap address TokenInfo;
  events : gmap address TokenEvents;
}.
End afjp_token.

Module juventud_token.
Record TokenInfo := {
  total_supply : Z;
  total_burned : Z;
  total_afjp_burned : Z;
  admin : address;
  exchange_rate : Z;
}.
Record DiscountSystem := {
  base_discount_rate : Z;
  max_discount_per_transaction : Z;
  total_discounts_applied : Z;
}.
Record UserDiscountInfo := {
  total_discounts_used : Z;
  last_discount_time : Z;
  discount_tier : Z;
}.
Variant BurnAFJPEvent :=
  burn_afjp_event (user : address) (afjp_amount juventud_received timestamp : Z).
Variant DiscountAppliedEvent :=
  discount_applied_event (user : address)
        (original_amount discount_amount final_amount timestamp : Z).
Variant ExchangeRateUpdatedEvent :=
  exchange_rate_updated_event (old_rate new_rate timestamp : Z).
Record TokenEvents := {
  burn_afjp_events : list BurnAFJPEvent;
  discount_applied_events : list DiscountAppliedEvent;
  exchange_rate_updated_events : list ExchangeRateUpdatedEvent;
}.
Record Store := {
  caps : gmap address unit;
  info : gmap address TokenInfo;
  discount : gmap address DiscountSystem;
  user_discount : gmap address UserDiscountInfo;
  events : gmap address TokenEvents;
}.
End juventud_token.

Module afjp_staking.
Record StakingPool := {
  total_staked : Z;
  total_rewards_distributed : Z;
  reward_rate_per_second : Z;
  last_update_time : Z;
  accumulated_reward_per_token : Z;
  admin : address;
  is_active : bool;
  total_stakers : Z;
}.
Record StakerInfo := {
  staked_amount : Z;
  reward_debt : Z;
  last_stake_time : Z;
  total_rewards_claimed : Z;
  user_reward_per_token_paid : Z;
}.
Variant StakeEvent := stake_event (user : address) (amount timestamp : Z).
Variant UnstakeEvent := unstake_event (user : address) (amount timestamp : Z).
Variant ClaimEvent := claim_event (user : address) (reward_amount timestamp : Z).
Record StakingEvents := {
  stake_events : list StakeEvent;
  unstake_events : list UnstakeEvent;
  claim_events : list ClaimEvent;
}.
Record Store := {
  pool : gmap address StakingPool;
  staker : gmap address StakerInfo;
  events : gmap address StakingEvents;
}.
End afjp_staking.

Module afjp_vesting.
Record VestingPool := {
  total_vested : Z;
  total_released : Z;
  admin : address;
  schedule_count : Z;
}.
Variant ScheduleCreatedEvent :=
  schedule_created_event (beneficiary : address)
        (amount start_time cliff_time end_time : Z) (creator : address).
Variant TokensReleasedEvent :=
  tokens_released_event (beneficiary : address) (amount timestamp total_released : Z).
Variant ScheduleRevokedEvent :=
  schedule_revoked_event (beneficiary : address)
        (unreleased_amount timestamp : Z) (revoker : address).
Record VestingEvents := {
  schedule_created_events : list ScheduleCreatedEvent;
  tokens_released_events : list TokensReleasedEvent;
  schedule_revoked_events : list ScheduleRevokedEvent;
}.
Record Store := {
  pool : gmap address VestingPool;
  events : gmap address VestingEvents;
}.
End afjp_vesting.

Module coin.
(** The balances held under each address, per coin type. *)
Record Store := {
  store_afjp : gmap address Z;
  store_juventud : gmap address Z;
}.
End coin.

  (** The global storage: [clock] is what [timestamp::now_seconds] reads,
  the other fields are the resources of each module, keyed by the
  address they are published under. *)
Record State := {
  clock : Z;
  coins : coin.Store;
  token : afjp_token.Store;
  juventud : juventud_token.Store;
  staking : afjp_staking.Store;
  vesting : afjp_vesting.Store;
}.

End Storage.

Abbreviation State := Storage.State.

(** ** The transaction monad *)

Definition M (A : Type) : Type := State -> result (A * State).

Definition ret {A} (a : A) : M A := fun s => Ok (a, s).

Definition bind {A B} (m : M A) (k : A -> M B) : M B :=
  fun s => match m s with
           | Ok (a, s') => k a s'
           | Err e => Err e
           end.

Notation "'let*' x ':=' m 'in' k" := (bind m (fun x => k))
  (at level 10, x name, m at level 100, k at level 200).
Notation "m ';;' k" := (bind m (fun _ => k))
  (at level 100, k at level 200, right associativity).

Definition abort {A} (e : error) : M A := fun _ => Err e.

Definition get : M State := fun s => Ok (s, s).

Definition modify (f : State -> State) : M unit := fun s => Ok (tt, f s).

(** [assert!(cond, code)] inside the module [loc]. *)
Definition assert_at (loc : location) (cond : bool) (code : Z) : M unit :=
  if cond then ret tt else abort (Abort loc code).

(** Arithmetic on [u64]: Move aborts the transaction on overflow, on
    underflow and on division by zero; it never wraps. *)
Definition add_u64 (x y : Z) : M Z :=
  if x + y <=? MAX_U64 then ret (x + y) else abort ARITHMETIC_ERROR.

Definition sub_u64 (x y : Z) : M Z :=
  if y <=? x then ret (x - y) else abort ARITHMETIC_ERROR.

Definition mul_u64 (x y : Z) : M Z :=
  if x * y <=? MAX_U64 then ret (x * y) else abort ARITHMETIC_ERROR.

Definition div_u64 (x y : Z) : M Z :=
  if y =? 0 then abort ARITHMETIC_ERROR else ret (x / y).

(** A resource type: where its instances live in the storage. *)
Record resource (R : Type) := {
  view : State -> gmap address R;
  update : gmap address R -> State -> State;
}.
Arguments view {R} r s.
Arguments update {R} r m s.

(** [exists<R>(a)] *)
Definition exists_ {R} (r : resource R) (a : address) : M bool :=
  fun s => Ok (bool_decide (is_Some (view r s !! a)), s).

(** [borrow_global<R>(a)] and the read half of [borrow_global_mut<R>(a)] *)
Definition borrow_global {R} (r : resource R) (a : address) : M R :=
  fun s => match view r s !! a with
           | Some v => Ok (v, s)
           | None => Err MISSING_DATA
           end.

(** A write through a reference obtained by [borrow_global_mut<R>(a)]. *)
Definition write_global {R} (r : resource R) (a : address) (v : R) : M unit :=
  modify (fun s => update r (<[a := v]> (view r s)) s).

(** [move_to<R>(signer, v)] *)
Definition move_to {R} (r : resource R) (a : address) (v : R) : M unit :=
  fun s => match view r s !! a with
           | Some _ => Err RESOURCE_ALREADY_EXISTS
           | None => Ok (tt, update r (<[a := v]> (view r s)) s)
           end.

Module timestamp.
Definition now_seconds : M Z := fun s => Ok (Storage.clock s, s).

(** The chain moving its clock between two transactions; no contract
    can do this. *)
Definition set_time (t : Z) : M unit :=
  modify (fun s =>
    {| Storage.clock := t; Storage.coins := Storage.coins s;
       Storage.token := Storage.token s; Storage.juventud := Storage.juventud s;
       Storage.staking := Storage.staking s; Storage.vesting := Storage.vesting s |}).
End timestamp.

(** ** Where each resource type lives *)

Module Res.
Import Storage.

Definition with_coins (f : coin.Store -> coin.Store) (s : State) : State :=
  {| clock := clock s; coins := f (coins s); token := token s;
     juventud := juventud s; staking := staking s; vesting := vesting s |}.

Definition with_token (f : afjp_token.Store -> afjp_token.Store) (s : State) : State :=
  {| clock := clock s; coins := coins s; token := f (token s);
     juventud := juventud s; staking := staking s; vesting := vesting s |}.

Definition with_juventud (f : juventud_token.Store -> juventud_token.Store)
    (s : State) : State :=
  {| clock := clock s; coins := coins s; token := token s;
     juventud := f (juventud s); staking := staking s; vesting := vesting s |}.

Definition with_staking (f : afjp_staking.Store -> afjp_staking.Store)
    (s : State) : State :=
  {| clock := clock s; coins := coins s; token := token s;
     juventud := juventud s; staking := f (staking s); vesting := vesting s |}.

Definition with_vesting (f : afjp_vesting.Store -> afjp_vesting.Store)
    (s : State) : State :=
  {| clock := clock s; coins := coins s; token := token s;
     juventud := juventud s; staking := staking s; vesting := f (vesting s) |}.

Definition AFJPToken_store : resource Z :=
  {| view s := coin.store_afjp (coins s);
     update m := with_coins (fun c =>
       {| coin.store_afjp := m;
          coin.store_juventud := coin.store_juventud c |}) |}.

Definition JuventudToken_store : resource Z :=
  {| view s := coin.store_juventud (coins s);
     update m := with_coins (fun c =>
       {| coin.store_afjp := coin.store_afjp c;
          coin.store_juventud := m |}) |}.

Definition token_TokenCapabilities : resource unit :=
  {| view s := afjp_token.caps (token s);
     update m := with_token (fun t =>
       {| afjp_token.caps := m;
          afjp_token.info := afjp_token.info t;
          afjp_token.events := afjp_token.events t |}) |}.

Definition token_TokenInfo : resource afjp_token.TokenInfo :=
  {| view s := afjp_token.info (token s);
     update m := with_token (fun t =>
       {| afjp_token.caps := afjp_token.caps t;
          afjp_token.info := m;
          afjp_token.events := afjp_token.events t |}) |}.

Definition token_TokenEvents : resource afjp_token.TokenEvents :=
  {| view s := afjp_token.events (token s);
     update m := with_token (fun t =>
       {| afjp_token.caps := afjp_token.caps t;
          afjp_token.info := afjp_token.info t;
          afjp_token.events := m |}) |}.

Definition juventud_TokenCapabilities : resource unit :=
  {| view s := juventud_token.caps (juventud s);
     update m := with_juventud (fun t =>
       {| juventud_token.caps := m;
          juventud_token.info := juventud_token.info t;
          juventud_token.discount := juventud_token.discount t;
          juventud_token.user_discount := juventud_token.user_discount t;
          juventud_token.events := juventud_token.events t |}) |}.

Definition juventud_TokenInfo : resource juventud_token.TokenInfo :=
  {| view s := juventud_token.info (juventud s);
     update m := with_juventud (fun t =>
       {| juventud_token.caps := juventud_token.caps t;
          juventud_token.info := m;
          juventud_token.discount := juventud_token.discount t;
          juventud_token.user_discount := juventud_token.user_discount t;
          juventud_token.events := juventud_token.events t |}) |}.

Definition DiscountSystem : resource juventud_token.DiscountSystem :=
  {| view s := juventud_token.discount (juventud s);
     update m := with_juventud (fun t =>
       {| juventud_token.caps := juventud_token.caps t;
          juventud_token.info := juventud_token.info t;
          juventud_token.discount := m;
          juventud_token.user_discount := juventud_token.user_discount t;
          juventud_token.events := juventud_token.events t |}) |}.

Definition UserDiscountInfo : resource juventud_token.UserDiscountInfo :=
  {| view s := juventud_token.user_discount (juventud s);
     update m := with_juventud (fun t =>
       {| juventud_token.caps := juventud_token.caps t;
          juventud_token.info := juventud_token.info t;
          juventud_token.discount := juventud_token.discount t;
          juventud_token.user_discount := m;
          juventud_token.events := juventud_token.events t |}) |}.

Definition juventud_TokenEvents : resource juventud_token.TokenEvents :=
  {| view s := juventud_token.events (juventud s);
     update m := with_juventud (fun t =>
       {| juventud_token.caps := juventud_token.caps t;
          juventud_token.info := juventud_token.info t;
          juventud_token.discount := juventud_token.discount t;
          juventud_token.user_discount := juventud_token.user_discount t;
          juventud_token.events := m |}) |}.

Definition StakingPool : resource afjp_staking.StakingPool :=
  {| view s := afjp_staking.pool (staking s);
     update m := with_staking (fun t =>
       {| afjp_staking.pool := m;
          afjp_staking.staker := afjp_staking.staker t;
          afjp_staking.events := afjp_staking.events t |}) |}.

Definition StakerInfo : resource afjp_staking.StakerInfo :=
  {| view s := afjp_staking.staker (staking s);
     update m := with_staking (fun t =>
       {| afjp_staking.pool := afjp_staking.pool t;
          afjp_staking.staker := m;
          afjp_staking.events := afjp_staking.events t |}) |}.

Definition StakingEvents : resource afjp_staking.StakingEvents :=
  {| view s := afjp_staking.events (staking s);
     update m := with_staking (fun t =>
       {| afjp_staking.pool := afjp_staking.pool t;
          afjp_staking.staker := afjp_staking.staker t;
          afjp_staking.events := m |}) |}.

Definition VestingPool : resource afjp_vesting.VestingPool :=
  {| view s := afjp_vesting.pool (vesting s);
     update m := with_vesting (fun t =>
       {| afjp_vesting.pool := m;
          afjp_vesting.events := afjp_vesting.events t |}) |}.

Definition VestingEvents : resource afjp_vesting.VestingEvents :=
  {| view s := afjp_vesting.events (vesting s);
     update m := with_vesting (fun t =>
       {| afjp_vesting.pool := afjp_vesting.pool t;
          afjp_vesting.events := m |}) |}.

End Res.

(** ** The coin ledger *)

Module coin.

Definition ECOIN_INFO_ADDRESS_MISMATCH : Z := 1.
Definition EINSUFFICIENT_BALANCE : Z := 6.

(** Modelled from the spec: [aptos_framework::coin], the ledger the four
    modules debit and credit, is a dependency whose source is not part of
    the repository.  It is modelled as the Ledger Core of the specification
    describes it: one unsigned 64-bit amount per holder and coin type, an
    entry being created on first credit and read as zero before; a debit
    requires the balance to cover it; a [Coin<T>] in flight is its value.
    [initialize] keeps the framework's rule that a coin type is initialised
    by the account that declares it. *)
Definition initialize (coin_address account : address) : M unit :=
  assert_at at_coin (bool_decide (account = coin_address)) ECOIN_INFO_ADDRESS_MISMATCH.

Definition balance (T : resource Z) (owner : address) : M Z :=
  fun s => Ok (default 0 (view T s !! owner), s).

Definition withdraw (T : resource Z) (account : address) (amount : Z) : M Z :=
  let* held := balance T account in
  assert_at at_coin (amount <=? held) EINSUFFICIENT_BALANCE ;;
  write_global T account (held - amount) ;;
  ret amount.

Definition deposit (T : resource Z) (account_addr : address) (coin : Z) : M unit :=
  let* held := balance T account_addr in
  let* merged := add_u64 held coin in
  write_global T account_addr merged.

Definition mint (amount : Z) : M Z := ret amount.

Definition burn (coin : Z) : M unit := ret tt.

Definition transfer (T : resource Z) (from to : address) (amount : Z) : M unit :=
  let* coin := withdraw T from amount in
  deposit T to coin.

End coin.

(** ** [afjp_crypto::afjp_token] *)

Module afjp_token.
Module T := Storage.afjp_token.

Definition E_NOT_ADMIN : Z := 1.
Definition E_ALREADY_INITIALIZED : Z := 2.
Definition E_NOT_INITIALIZED : Z := 3.
Definition E_INSUFFICIENT_BALANCE : Z := 4.
Definition E_INVALID_AMOUNT : Z := 5.

Definition assert_ : bool -> Z -> M unit := assert_at at_afjp_token.

Section afjp_token.
(** The named address [@afjp_crypto] the package is published under. *)
Variable afjp_crypto : address.

Definition get_admin_address : address := afjp_crypto.

Definition initialize (admin : address) : M unit :=
  let admin_addr := admin in
  let* published := exists_ Res.token_TokenCapabilities admin_addr in
  assert_ (negb published) E_ALREADY_INITIALIZED ;;
  coin.initialize afjp_crypto admin ;;
  move_to Res.token_TokenCapabilities admin_addr tt ;;
  move_to Res.token_TokenInfo admin_addr
    {| T.total_supply := 0; T.burned_amount := 0; T.admin := admin_addr |} ;;
  move_to Res.token_TokenEvents admin_addr
    {| T.mint_events := []; T.burn_events := []; T.transfer_events := [] |}.

Definition mint (admin recipient : address) (amount : Z) : M unit :=
  let admin_addr := admin in
  let* published := exists_ Res.token_TokenCapabilities admin_addr in
  assert_ published E_NOT_INITIALIZED ;;
  assert_ (0 <? amount) E_INVALID_AMOUNT ;;
  let* capabilities := borrow_global Res.token_TokenCapabilities admin_addr in
  let* token_info := borrow_global Res.token_TokenInfo admin_addr in
  let* events := borrow_global Res.token_TokenEvents admin_addr in
  assert_ (bool_decide (T.admin token_info = admin_addr)) E_NOT_ADMIN ;;
  let* coins := coin.mint amount in
  coin.deposit Res.AFJPToken_store recipient coins ;;
  let* total := add_u64 (T.total_supply token_info) amount in
  write_global Res.token_TokenInfo admin_addr
    {| T.total_supply := total;
       T.burned_amount := T.burned_amount token_info;
       T.admin := T.admin token_info |} ;;
  let* now := timestamp.now_seconds in
  write_global Res.token_TokenEvents admin_addr
    {| T.mint_events := T.mint_events events ++ [T.mint_event amount recipient now];
       T.burn_events := T.burn_events events;
       T.transfer_events := T.transfer_events events |}.

Definition burn (account : address) (amount : Z) : M unit :=
  let account_addr := account in
  let admin_addr := get_admin_address in
  let* published := exists_ Res.token_TokenCapabilities admin_addr in
  assert_ published E_NOT_INITIALIZED ;;
  assert_ (0 <? amount) E_INVALID_AMOUNT ;;
  let* capabilities := borrow_global Res.token_TokenCapabilities admin_addr in
  let* token_info := borrow_global Res.token_TokenInfo admin_addr in
  let* events := borrow_global Res.token_TokenEvents admin_addr in
  let* balance := coin.balance Res.AFJPToken_store account_addr in
  assert_ (amount <=? balance) E_INSUFFICIENT_BALANCE ;;
  let* coins := coin.withdraw Res.AFJPToken_store account amount in
  coin.burn coins ;;
  let* burned := add_u64 (T.burned_amount token_info) amount in
  write_global Res.token_TokenInfo admin_addr
    {| T.total_supply := T.total_supply token_info;
       T.burned_amount := burned;
       T.admin := T.admin token_info |} ;;
  let* now := timestamp.now_seconds in
  write_global Res.token_TokenEvents admin_addr
    {| T.mint_events := T.mint_events events;
       T.burn_events := T.burn_events events ++ [T.burn_event amount account_addr now];
       T.transfer_events := T.transfer_events events |}.

Definition transfer (from to : address) (amount : Z) : M unit :=
  let from_addr := from in
  assert_ (0 <? amount) E_INVALID_AMOUNT ;;
  let* balance := coin.balance Res.AFJPToken_store from_addr in
  assert_ (amount <=? balance) E_INSUFFICIENT_BALANCE ;;
  coin.transfer Res.AFJPToken_store from to amount ;;
  let admin_addr := get_admin_address in
  let* has_events := exists_ Res.token_TokenEvents admin_addr in
  if has_events then
    let* events := borrow_global Res.token_TokenEvents admin_addr in
    let* now := timestamp.now_seconds in
    write_global Res.token_TokenEvents admin_addr
      {| T.mint_events := T.mint_events events;
         T.burn_events := T.burn_events events;
         T.transfer_events :=
           T.transfer_events events ++ [T.transfer_event amount from_addr to now] |}
  else ret tt.

Definition get_total_supply : M Z :=
  let admin_addr := get_admin_address in
  let* has_info := exists_ Res.token_TokenInfo admin_addr in
  if has_info then
    let* token_info := borrow_global Res.token_TokenInfo admin_addr in
    ret (T.total_supply token_info)
  else ret 0.

Definition get_burned_amount : M Z :=
  let admin_addr := get_admin_address in
  let* has_info := exists_ Res.token_TokenInfo admin_addr in
  if has_info then
    let* token_info := borrow_global Res.token_TokenInfo admin_addr in
    ret (T.burned_amount token_info)
  else ret 0.

Definition get_circulating_supply : M Z :=
  let* total := get_total_supply in
  let* burned := get_burned_amount in
  sub_u64 total burned.

Definition get_balance (account : address) : M Z :=
  coin.balance Res.AFJPToken_store account.

Definition is_initialized : M bool :=
  exists_ Res.token_TokenCapabilities get_admin_address.

End afjp_token.
End afjp_token.

(** ** [afjp_crypto::juventud_token] *)

Module juventud_token.
Module J := Storage.juventud_token.

Definition E_NOT_INITIALIZED : Z := 1.
Definition E_ALREADY_INITIALIZED : Z := 2.
Definition E_INVALID_AMOUNT : Z := 3.
Definition E_INSUFFICIENT_AFJP_BALANCE : Z := 4.
Definition E_INSUFFICIENT_JUVENTUD_BALANCE : Z := 5.
Definition E_NOT_ADMIN : Z := 6.
Definition E_DISCOUNT_NOT_AVAILABLE : Z := 7.
Definition E_INVALID_DISCOUNT_AMOUNT : Z := 8.

Definition AFJP_TO_JUVENTUD_RATE : Z := 10.
Definition MIN_BURN_AMOUNT : Z := 100.
Definition MAX_DISCOUNT_PERCENTAGE : Z := 50.

Definition assert_ : bool -> Z -> M unit := assert_at at_juventud_token.

Definition set_total_supply (v : Z) (i : J.TokenInfo) : J.TokenInfo :=
  {| J.total_supply := v; J.total_burned := J.total_burned i;
     J.total_afjp_burned := J.total_afjp_burned i; J.admin := J.admin i;
     J.exchange_rate := J.exchange_rate i |}.

Definition set_total_afjp_burned (v : Z) (i : J.TokenInfo) : J.TokenInfo :=
  {| J.total_supply := J.total_supply i; J.total_burned := J.total_burned i;
     J.total_afjp_burned := v; J.admin := J.admin i;
     J.exchange_rate := J.exchange_rate i |}.

Definition set_exchange_rate (v : Z) (i : J.TokenInfo) : J.TokenInfo :=
  {| J.total_supply := J.total_supply i; J.total_burned := J.total_burned i;
     J.total_afjp_burned := J.total_afjp_burned i; J.admin := J.admin i;
     J.exchange_rate := v |}.

Section juventud_token.
Variable afjp_crypto : address.

Definition get_admin_address : address := afjp_crypto.

Definition initialize (admin : address) : M unit :=
  let admin_addr := admin in
  let* published := exists_ Res.juventud_TokenCapabilities admin_addr in
  assert_ (negb published) E_ALREADY_INITIALIZED ;;
  coin.initialize afjp_crypto admin ;;
  move_to Res.juventud_TokenCapabilities admin_addr tt ;;
  move_to Res.juventud_TokenInfo admin_addr
    {| J.total_supply := 0; J.total_burned := 0; J.total_afjp_burned := 0;
       J.admin := admin_addr; J.exchange_rate := AFJP_TO_JUVENTUD_RATE |} ;;
  move_to Res.DiscountSystem admin_addr
    {| J.base_discount_rate := 1000; J.max_discount_per_transaction := 500000;
       J.total_discounts_applied := 0 |} ;;
  move_to Res.juventud_TokenEvents admin_addr
    {| J.burn_afjp_events := []; J.discount_applied_events := [];
       J.exchange_rate_updated_events := [] |}.

Definition burn_afjp_for_juventud (user : address) (afjp_amount : Z) : M unit :=
  let user_addr := user in
  assert_ (MIN_BURN_AMOUNT <=? afjp_amount) E_INVALID_AMOUNT ;;
  let* afjp_balance := afjp_token.get_balance user_addr in
  assert_ (afjp_amount <=? afjp_balance) E_INSUFFICIENT_AFJP_BALANCE ;;
  let admin_addr := get_admin_address in
  let* published := exists_ Res.juventud_TokenCapabilities admin_addr in
  assert_ published E_NOT_INITIALIZED ;;
  let* capabilities := borrow_global Res.juventud_TokenCapabilities admin_addr in
  let* token_info := borrow_global Res.juventud_TokenInfo admin_addr in
  let* events := borrow_global Res.juventud_TokenEvents admin_addr in
  let* juventud_amount := mul_u64 afjp_amount (J.exchange_rate token_info) in
  afjp_token.burn afjp_crypto user afjp_amount ;;
  let* juventud_coins := coin.mint juventud_amount in
  coin.deposit Res.JuventudToken_store user_addr juventud_coins ;;
  let* supply := add_u64 (J.total_supply token_info) juventud_amount in
  let token_info := set_total_supply supply token_info in
  let* afjp_burned := add_u64 (J.total_afjp_burned token_info) afjp_amount in
  let token_info := set_total_afjp_burned afjp_burned token_info in
  write_global Res.juventud_TokenInfo admin_addr token_info ;;
  let* now := timestamp.now_seconds in
  write_global Res.juventud_TokenEvents admin_addr
    {| J.burn_afjp_events :=
         J.burn_afjp_events events
           ++ [J.burn_afjp_event user_addr afjp_amount juventud_amount now];
       J.discount_applied_events := J.discount_applied_events events;
       J.exchange_rate_updated_events := J.exchange_rate_updated_events events |}.

Definition apply_rental_discount (user : address)
    (rental_amount discount_percentage : Z) : M unit :=
  let user_addr := user in
  assert_ (0 <? rental_amount) E_INVALID_AMOUNT ;;
  assert_ ((0 <? discount_percentage)
           && (discount_percentage <=? MAX_DISCOUNT_PERCENTAGE))
    E_INVALID_DISCOUNT_AMOUNT ;;
  let admin_addr := get_admin_address in
  let* has_system := exists_ Res.DiscountSystem admin_addr in
  assert_ has_system E_NOT_INITIALIZED ;;
  let* discount_system := borrow_global Res.DiscountSystem admin_addr in
  let* scaled := mul_u64 rental_amount discount_percentage in
  let* discount_amount := div_u64 scaled 100 in
  assert_ (discount_amount <=? J.max_discount_per_transaction discount_system)
    E_INVALID_DISCOUNT_AMOUNT ;;
  let required_juventud := discount_amount in
  let* juventud_balance := coin.balance Res.JuventudToken_store user_addr in
  assert_ (required_juventud <=? juventud_balance) E_INSUFFICIENT_JUVENTUD_BALANCE ;;
  let* juventud_coins := coin.withdraw Res.JuventudToken_store user required_juventud in
  let admin_addr := get_admin_address in
  let* capabilities := borrow_global Res.juventud_TokenCapabilities admin_addr in
  coin.burn juventud_coins ;;
  let* has_user_info := exists_ Res.UserDiscountInfo user_addr in
  (if negb has_user_info then
     let* now := timestamp.now_seconds in
     move_to Res.UserDiscountInfo user_addr
       {| J.total_discounts_used := discount_amount; J.last_discount_time := now;
          J.discount_tier := 0 |}
   else
     let* user_info := borrow_global Res.UserDiscountInfo user_addr in
     let* used := add_u64 (J.total_discounts_used user_info) discount_amount in
     let* now := timestamp.now_seconds in
     write_global Res.UserDiscountInfo user_addr
       {| J.total_discounts_used := used; J.last_discount_time := now;
          J.discount_tier :=
            if 100000 <=? used then 2
            else if 50000 <=? used then 1
            else J.discount_tier user_info |}) ;;
  let* applied := add_u64 (J.total_discounts_applied discount_system) discount_amount in
  write_global Res.DiscountSystem admin_addr
    {| J.base_discount_rate := J.base_discount_rate discount_system;
       J.max_discount_per_transaction := J.max_discount_per_transaction discount_system;
       J.total_discounts_applied := applied |} ;;
  let* events := borrow_global Res.juventud_TokenEvents admin_addr in
  let* final_amount := sub_u64 rental_amount discount_amount in
  let* now := timestamp.now_seconds in
  write_global Res.juventud_TokenEvents admin_addr
    {| J.burn_afjp_events := J.burn_afjp_events events;
       J.discount_applied_events :=
         J.discount_applied_events events
           ++ [J.discount_applied_event user_addr rental_amount discount_amount
                 final_amount now];
       J.exchange_rate_updated_events := J.exchange_rate_updated_events events |}.

Definition update_exchange_rate (admin : address) (new_rate : Z) : M unit :=
  let admin_addr := admin in
  let* has_info := exists_ Res.juventud_TokenInfo admin_addr in
  assert_ has_info E_NOT_INITIALIZED ;;
  let* token_info := borrow_global Res.juventud_TokenInfo admin_addr in
  assert_ (bool_decide (J.admin token_info = admin_addr)) E_NOT_ADMIN ;;
  assert_ (0 <? new_rate) E_INVALID_AMOUNT ;;
  let old_rate := J.exchange_rate token_info in
  write_global Res.juventud_TokenInfo admin_addr (set_exchange_rate new_rate token_info) ;;
  let* events := borrow_global Res.juventud_TokenEvents admin_addr in
  let* now := timestamp.now_seconds in
  write_global Res.juventud_TokenEvents admin_addr
    {| J.burn_afjp_events := J.burn_afjp_events events;
       J.discount_applied_events := J.discount_applied_events events;
       J.exchange_rate_updated_events :=
         J.exchange_rate_updated_events events
           ++ [J.exchange_rate_updated_event old_rate new_rate now] |}.

Definition get_token_info : M (Z * Z * Z * Z) :=
  let admin_addr := get_admin_address in
  let* has_info := exists_ Res.juventud_TokenInfo admin_addr in
  if negb has_info then ret (0, 0, 0, 0)
  else
    let* token_info := borrow_global Res.juventud_TokenInfo admin_addr in
    ret (J.total_supply token_info, J.total_burned token_info,
         J.total_afjp_burned token_info, J.exchange_rate token_info).

Definition calculate_juventud_for_afjp (afjp_amount : Z) : M Z :=
  let admin_addr := get_admin_address in
  let* has_info := exists_ Res.juventud_TokenInfo admin_addr in
  if negb has_info then ret 0
  else
    let* token_info := borrow_global Res.juventud_TokenInfo admin_addr in
    mul_u64 afjp_amount (J.exchange_rate token_info).

Definition get_balance (user : address) : M Z :=
  coin.balance Res.JuventudToken_store user.

Definition is_initialized : M bool :=
  exists_ Res.juventud_TokenCapabilities get_admin_address.

End juventud_token.
End juventud_token.

(** ** [afjp_crypto::afjp_staking] *)

Module afjp_staking.
Module S := Storage.afjp_staking.

Definition E_NOT_INITIALIZED : Z := 1.
Definition E_ALREADY_INITIALIZED : Z := 2.
Definition E_INVALID_AMOUNT : Z := 3.
Definition E_INSUFFICIENT_BALANCE : Z := 4.
Definition E_INSUFFICIENT_STAKED : Z := 5.
Definition E_NO_REWARDS : Z := 6.
Definition E_NOT_ADMIN : Z := 7.
Definition E_POOL_NOT_ACTIVE : Z := 8.

Definition SECONDS_PER_YEAR : Z := 31536000.
Definition BASE_APY : Z := 1200.
Definition MAX_APY : Z := 2500.
Definition MIN_STAKE_AMOUNT : Z := 100.
Definition REWARD_PRECISION : Z := 1000000.

Definition assert_ : bool -> Z -> M unit := assert_at at_afjp_staking.

(** Assignments to one field of a borrowed [StakingPool]. *)
Definition set_total_staked (v : Z) (p : S.StakingPool) : S.StakingPool :=
  {| S.total_staked := v;
     S.total_rewards_distributed := S.total_rewards_distributed p;
     S.reward_rate_per_second := S.reward_rate_per_second p;
     S.last_update_time := S.last_update_time p;
     S.accumulated_reward_per_token := S.accumulated_reward_per_token p;
     S.admin := S.admin p; S.is_active := S.is_active p;
     S.total_stakers := S.total_stakers p |}.

Definition set_total_rewards_distributed (v : Z) (p : S.StakingPool) : S.StakingPool :=
  {| S.total_staked := S.total_staked p;
     S.total_rewards_distributed := v;
     S.reward_rate_per_second := S.reward_rate_per_second p;
     S.last_update_time := S.last_update_time p;
     S.accumulated_reward_per_token := S.accumulated_reward_per_token p;
     S.admin := S.admin p; S.is_active := S.is_active p;
     S.total_stakers := S.total_stakers p |}.

Definition set_reward_rate_per_second (v : Z) (p : S.StakingPool) : S.StakingPool :=
  {| S.total_staked := S.total_staked p;
     S.total_rewards_distributed := S.total_rewards_distributed p;
     S.reward_rate_per_second := v;
     S.last_update_time := S.last_update_time p;
     S.accumulated_reward_per_token := S.accumulated_reward_per_token p;
     S.admin := S.admin p; S.is_active := S.is_active p;
     S.total_stakers := S.total_stakers p |}.

Definition set_last_update_time (v : Z) (p : S.StakingPool) : S.StakingPool :=
  {| S.total_staked := S.total_staked p;
     S.total_rewards_distributed := S.total_rewards_distributed p;
     S.reward_rate_per_second := S.reward_rate_per_second p;
     S.last_update_time := v;
     S.accumulated_reward_per_token := S.accumulated_reward_per_token p;
     S.admin := S.admin p; S.is_active := S.is_active p;
     S.total_stakers := S.total_stakers p |}.

Definition set_accumulated_reward_per_token (v : Z) (p : S.StakingPool) : S.StakingPool :=
  {| S.total_staked := S.total_staked p;
     S.total_rewards_distributed := S.total_rewards_distributed p;
     S.reward_rate_per_second := S.reward_rate_per_second p;
     S.last_update_time := S.last_update_time p;
     S.accumulated_reward_per_token := v;
     S.admin := S.admin p; S.is_active := S.is_active p;
     S.total_stakers := S.total_stakers p |}.

Definition set_total_stakers (v : Z) (p : S.StakingPool) : S.StakingPool :=
  {| S.total_staked := S.total_staked p;
     S.total_rewards_distributed := S.total_rewards_distributed p;
     S.reward_rate_per_second := S.reward_rate_per_second p;
     S.last_update_time := S.last_update_time p;
     S.accumulated_reward_per_token := S.accumulated_reward_per_token p;
     S.admin := S.admin p; S.is_active := S.is_active p;
     S.total_stakers := v |}.

(** Assignments to one field of a borrowed [StakerInfo]. *)
Definition set_staked_amount (v : Z) (i : S.StakerInfo) : S.StakerInfo :=
  {| S.staked_amount := v; S.reward_debt := S.reward_debt i;
     S.last_stake_time := S.last_stake_time i;
     S.total_rewards_claimed := S.total_rewards_claimed i;
     S.user_reward_per_token_paid := S.user_reward_per_token_paid i |}.

Definition set_last_stake_time (v : Z) (i : S.StakerInfo) : S.StakerInfo :=
  {| S.staked_amount := S.staked_amount i; S.reward_debt := S.reward_debt i;
     S.last_stake_time := v;
     S.total_rewards_claimed := S.total_rewards_claimed i;
     S.user_reward_per_token_paid := S.user_reward_per_token_paid i |}.

Definition set_total_rewards_claimed (v : Z) (i : S.StakerInfo) : S.StakerInfo :=
  {| S.staked_amount := S.staked_amount i; S.reward_debt := S.reward_debt i;
     S.last_stake_time := S.last_stake_time i;
     S.total_rewards_claimed := v;
     S.user_reward_per_token_paid := S.user_reward_per_token_paid i |}.

Definition set_user_reward_per_token_paid (v : Z) (i : S.StakerInfo) : S.StakerInfo :=
  {| S.staked_amount := S.staked_amount i; S.reward_debt := S.reward_debt i;
     S.last_stake_time := S.last_stake_time i;
     S.total_rewards_claimed := S.total_rewards_claimed i;
     S.user_reward_per_token_paid := v |}.

Section afjp_staking.
Variable afjp_crypto : address.

Definition get_admin_address : address := afjp_crypto.

Definition initialize (admin : address) : M unit :=
  let admin_addr := admin in
  let* has_pool := exists_ Res.StakingPool admin_addr in
  assert_ (negb has_pool) E_ALREADY_INITIALIZED ;;
  let* current_time := timestamp.now_seconds in
  let* numerator := mul_u64 BASE_APY REWARD_PRECISION in
  let* denominator := mul_u64 10000 SECONDS_PER_YEAR in
  let* reward_rate := div_u64 numerator denominator in
  move_to Res.StakingPool admin_addr
    {| S.total_staked := 0;
       S.total_rewards_distributed := 0;
       S.reward_rate_per_second := reward_rate;
       S.last_update_time := current_time;
       S.accumulated_reward_per_token := 0;
       S.admin := admin_addr;
       S.is_active := true;
       S.total_stakers := 0 |} ;;
  move_to Res.StakingEvents admin_addr
    {| S.stake_events := []; S.unstake_events := []; S.claim_events := [] |}.

Definition update_pool_rewards : M unit :=
  let admin_addr := get_admin_address in
  let* has_pool := exists_ Res.StakingPool admin_addr in
  if negb has_pool then ret tt
  else
    let* pool := borrow_global Res.StakingPool admin_addr in
    let* current_time := timestamp.now_seconds in
    let* pool :=
      if (0 <? S.total_staked pool) && (S.last_update_time pool <? current_time) then
        let* time_elapsed := sub_u64 current_time (S.last_update_time pool) in
        let* reward_per_token := mul_u64 time_elapsed (S.reward_rate_per_second pool) in
        let* accumulated := add_u64 (S.accumulated_reward_per_token pool) reward_per_token in
        ret (set_accumulated_reward_per_token accumulated pool)
      else ret pool in
    write_global Res.StakingPool admin_addr (set_last_update_time current_time pool).

Definition calculate_rewards (user : address) : M Z :=
  let* has_staker := exists_ Res.StakerInfo user in
  if negb has_staker then ret 0
  else
    let admin_addr := get_admin_address in
    let* has_pool := exists_ Res.StakingPool admin_addr in
    if negb has_pool then ret 0
    else
      let* pool := borrow_global Res.StakingPool admin_addr in
      let* staker_info := borrow_global Res.StakerInfo user in
      let* current_time := timestamp.now_seconds in
      let accumulated_reward_per_token := S.accumulated_reward_per_token pool in
      let* accumulated_reward_per_token :=
        if (0 <? S.total_staked pool) && (S.last_update_time pool <? current_time) then
          let* time_elapsed := sub_u64 current_time (S.last_update_time pool) in
          let* additional_reward_per_token :=
            mul_u64 time_elapsed (S.reward_rate_per_second pool) in
          add_u64 accumulated_reward_per_token additional_reward_per_token
        else ret accumulated_reward_per_token in
      let* reward_per_token_diff :=
        sub_u64 accumulated_reward_per_token (S.user_reward_per_token_paid staker_info) in
      let* scaled := mul_u64 (S.staked_amount staker_info) reward_per_token_diff in
      div_u64 scaled REWARD_PRECISION.

Definition stake_tokens (user : address) (amount : Z) : M unit :=
  let user_addr := user in
  assert_ (MIN_STAKE_AMOUNT <=? amount) E_INVALID_AMOUNT ;;
  let* balance := afjp_token.get_balance user_addr in
  assert_ (amount <=? balance) E_INSUFFICIENT_BALANCE ;;
  let admin_addr := get_admin_address in
  let* has_pool := exists_ Res.StakingPool admin_addr in
  assert_ has_pool E_NOT_INITIALIZED ;;
  update_pool_rewards ;;
  let* pool := borrow_global Res.StakingPool admin_addr in
  assert_ (S.is_active pool) E_POOL_NOT_ACTIVE ;;
  coin.transfer Res.AFJPToken_store user admin_addr amount ;;
  let accumulated_reward_per_token := S.accumulated_reward_per_token pool in
  let* has_staker := exists_ Res.StakerInfo user_addr in
  let* pool :=
    if negb has_staker then
      let* now := timestamp.now_seconds in
      move_to Res.StakerInfo user_addr
        {| S.staked_amount := amount;
           S.reward_debt := 0;
           S.last_stake_time := now;
           S.total_rewards_claimed := 0;
           S.user_reward_per_token_paid := accumulated_reward_per_token |} ;;
      let* stakers := add_u64 (S.total_stakers pool) 1 in
      ret (set_total_stakers stakers pool)
    else
      let* staker_info := borrow_global Res.StakerInfo user_addr in
      let* staked := add_u64 (S.staked_amount staker_info) amount in
      let staker_info := set_staked_amount staked staker_info in
      let* now := timestamp.now_seconds in
      let staker_info := set_last_stake_time now staker_info in
      let staker_info :=
        set_user_reward_per_token_paid accumulated_reward_per_token staker_info in
      write_global Res.StakerInfo user_addr staker_info ;;
      ret pool in
  let* total := add_u64 (S.total_staked pool) amount in
  write_global Res.StakingPool admin_addr (set_total_staked total pool) ;;
  let* events := borrow_global Res.StakingEvents admin_addr in
  let* now := timestamp.now_seconds in
  write_global Res.StakingEvents admin_addr
    {| S.stake_events := S.stake_events events ++ [S.stake_event user_addr amount now];
       S.unstake_events := S.unstake_events events;
       S.claim_events := S.claim_events events |}.

Definition unstake_tokens (user : address) (amount : Z) : M unit :=
  let user_addr := user in
  assert_ (0 <? amount) E_INVALID_AMOUNT ;;
  let* has_staker := exists_ Res.StakerInfo user_addr in
  assert_ has_staker E_INSUFFICIENT_STAKED ;;
  let* staker_info := borrow_global Res.StakerInfo user_addr in
  assert_ (amount <=? S.staked_amount staker_info) E_INSUFFICIENT_STAKED ;;
  update_pool_rewards ;;
  let admin_addr := get_admin_address in
  let* pool := borrow_global Res.StakingPool admin_addr in
  let* staker_info := borrow_global Res.StakerInfo user_addr in
  let* staked := sub_u64 (S.staked_amount staker_info) amount in
  let staker_info := set_staked_amount staked staker_info in
  let staker_info :=
    set_user_reward_per_token_paid (S.accumulated_reward_per_token pool) staker_info in
  write_global Res.StakerInfo user_addr staker_info ;;
  let* pool :=
    if S.staked_amount staker_info =? 0 then
      let* stakers := sub_u64 (S.total_stakers pool) 1 in
      ret (set_total_stakers stakers pool)
    else ret pool in
  let* total := sub_u64 (S.total_staked pool) amount in
  write_global Res.StakingPool admin_addr (set_total_staked total pool) ;;
  let* events := borrow_global Res.StakingEvents admin_addr in
  let* now := timestamp.now_seconds in
  write_global Res.StakingEvents admin_addr
    {| S.stake_events := S.stake_events events;
       S.unstake_events :=
         S.unstake_events events ++ [S.unstake_event user_addr amount now];
       S.claim_events := S.claim_events events |}.

Definition claim_rewards_internal (user_addr : address) : M unit :=
  let* has_staker := exists_ Res.StakerInfo user_addr in
  assert_ has_staker E_NO_REWARDS ;;
  update_pool_rewards ;;
  let* reward_amount := calculate_rewards user_addr in
  assert_ (0 <? reward_amount) E_NO_REWARDS ;;
  let admin_addr := get_admin_address in
  let* pool := borrow_global Res.StakingPool admin_addr in
  let* staker_info := borrow_global Res.StakerInfo user_addr in
  let* claimed := add_u64 (S.total_rewards_claimed staker_info) reward_amount in
  let staker_info := set_total_rewards_claimed claimed staker_info in
  let staker_info :=
    set_user_reward_per_token_paid (S.accumulated_reward_per_token pool) staker_info in
  write_global Res.StakerInfo user_addr staker_info ;;
  let* distributed := add_u64 (S.total_rewards_distributed pool) reward_amount in
  write_global Res.StakingPool admin_addr (set_total_rewards_distributed distributed pool) ;;
  let* events := borrow_global Res.StakingEvents admin_addr in
  let* now := timestamp.now_seconds in
  write_global Res.StakingEvents admin_addr
    {| S.stake_events := S.stake_events events;
       S.unstake_events := S.unstake_events events;
       S.claim_events :=
         S.claim_events events ++ [S.claim_event user_addr reward_amount now] |}.

Definition claim_rewards (user : address) : M unit :=
  let user_addr := user in
  claim_rewards_internal user_addr.

Definition add_rewards (admin : address) (amount : Z) : M unit :=
  let admin_addr := admin in
  let* has_pool := exists_ Res.StakingPool admin_addr in
  assert_ has_pool E_NOT_INITIALIZED ;;
  let* pool := borrow_global Res.StakingPool admin_addr in
  assert_ (bool_decide (S.admin pool = admin_addr)) E_NOT_ADMIN ;;
  if 0 <? S.total_staked pool then
    let* numerator := mul_u64 amount REWARD_PRECISION in
    let* denominator := mul_u64 (S.total_staked pool) SECONDS_PER_YEAR in
    let* additional_rate := div_u64 numerator denominator in
    let* rate := add_u64 (S.reward_rate_per_second pool) additional_rate in
    let pool := set_reward_rate_per_second rate pool in
    let* max_numerator := mul_u64 MAX_APY REWARD_PRECISION in
    let* max_denominator := mul_u64 10000 SECONDS_PER_YEAR in
    let* max_rate := div_u64 max_numerator max_denominator in
    let pool :=
      if max_rate <? S.reward_rate_per_second pool
      then set_reward_rate_per_second max_rate pool
      else pool in
    write_global Res.StakingPool admin_addr pool
  else ret tt.

Definition get_staking_info (user : address) : M (Z * Z * Z * Z) :=
  let* has_staker := exists_ Res.StakerInfo user in
  if negb has_staker then ret (0, 0, 0, 0)
  else
    let* staker_info := borrow_global Res.StakerInfo user in
    let pending_rewards := 0 in
    ret (S.staked_amount staker_info, S.total_rewards_claimed staker_info,
         pending_rewards, S.last_stake_time staker_info).

Definition get_pool_stats : M (Z * Z * Z * Z * bool) :=
  let admin_addr := get_admin_address in
  let* has_pool := exists_ Res.StakingPool admin_addr in
  if negb has_pool then ret (0, 0, 0, 0, false)
  else
    let* pool := borrow_global Res.StakingPool admin_addr in
    ret (S.total_staked pool, S.total_rewards_distributed pool,
         S.reward_rate_per_second pool, S.total_stakers pool, S.is_active pool).

Definition is_initialized : M bool :=
  exists_ Res.StakingPool get_admin_address.

End afjp_staking.
End afjp_staking.

(** ** [afjp_crypto::afjp_vesting] *)

Module afjp_vesting.
Module V := Storage.afjp_vesting.

Definition E_NOT_INITIALIZED : Z := 1.
Definition E_ALREADY_INITIALIZED : Z := 2.
Definition E_INVALID_AMOUNT : Z := 6.
Definition E_INSUFFICIENT_BALANCE : Z := 8.

Definition VESTING_DURATION_SECONDS : Z := 157680000.
Definition CLIFF_DURATION_SECONDS : Z := 31536000.

Definition assert_ : bool -> Z -> M unit := assert_at at_afjp_vesting.

Section afjp_vesting.
Variable afjp_crypto : address.

Definition get_admin_address : address := afjp_crypto.

Definition initialize (admin : address) : M unit :=
  let admin_addr := admin in
  let* has_pool := exists_ Res.VestingPool admin_addr in
  assert_ (negb has_pool) E_ALREADY_INITIALIZED ;;
  move_to Res.VestingPool admin_addr
    {| V.total_vested := 0; V.total_released := 0; V.admin := admin_addr;
       V.schedule_count := 0 |} ;;
  move_to Res.VestingEvents admin_addr
    {| V.schedule_created_events := []; V.tokens_released_events := [];
       V.schedule_revoked_events := [] |}.

Definition create_vesting_schedule (creator beneficiary : address) (amount : Z) : M unit :=
  let creator_addr := creator in
  let* current_time := timestamp.now_seconds in
  assert_ (0 <? amount) E_INVALID_AMOUNT ;;
  let admin_addr := get_admin_address in
  let* has_pool := exists_ Res.VestingPool admin_addr in
  assert_ has_pool E_NOT_INITIALIZED ;;
  let* creator_balance := afjp_token.get_balance creator_addr in
  assert_ (amount <=? creator_balance) E_INSUFFICIENT_BALANCE ;;
  coin.transfer Res.AFJPToken_store creator admin_addr amount ;;
  let* cliff_time := add_u64 current_time CLIFF_DURATION_SECONDS in
  let* end_time := add_u64 current_time VESTING_DURATION_SECONDS in
  let* pool := borrow_global Res.VestingPool admin_addr in
  let* vested := add_u64 (V.total_vested pool) amount in
  let* count := add_u64 (V.schedule_count pool) 1 in
  write_global Res.VestingPool admin_addr
    {| V.total_vested := vested; V.total_released := V.total_released pool;
       V.admin := V.admin pool; V.schedule_count := count |} ;;
  let* events := borrow_global Res.VestingEvents admin_addr in
  write_global Res.VestingEvents admin_addr
    {| V.schedule_created_events :=
         V.schedule_created_events events
           ++ [V.schedule_created_event beneficiary amount current_time cliff_time
                 end_time creator_addr];
       V.tokens_released_events := V.tokens_released_events events;
       V.schedule_revoked_events := V.schedule_revoked_events events |}.

(** The pool is borrowed and left as it is; the event carries the two
    zeros the source writes in place of the schedule's figures. *)
Definition release_vested_tokens (beneficiary : address) : M unit :=
  let beneficiary_addr := beneficiary in
  let admin_addr := get_admin_address in
  let* _pool := borrow_global Res.VestingPool admin_addr in
  let* events := borrow_global Res.VestingEvents admin_addr in
  let* now := timestamp.now_seconds in
  write_global Res.VestingEvents admin_addr
    {| V.schedule_created_events := V.schedule_created_events events;
       V.tokens_released_events :=
         V.tokens_released_events events
           ++ [V.tokens_released_event beneficiary_addr 0 now 0];
       V.schedule_revoked_events := V.schedule_revoked_events events |}.

Definition calculate_vested_amount (beneficiary : address) : Z :=
  let _ := beneficiary in
  0.

Definition get_vesting_info (beneficiary : address) : Z * Z * Z * Z * Z * Z :=
  let _ := beneficiary in
  (0, 0, 0, 0, 0, 0).

Definition get_pool_stats : M (Z * Z * Z) :=
  let admin_addr := get_admin_address in
  let* has_pool := exists_ Res.VestingPool admin_addr in
  if negb has_pool then ret (0, 0, 0)
  else
    let* pool := borrow_global Res.VestingPool admin_addr in
    ret (V.total_vested pool, V.total_released pool, V.schedule_count pool).

Definition has_vesting_schedule (beneficiary : address) : bool :=
  let _ := beneficiary in
  false.

Definition get_releasable_amount (beneficiary : address) : Z :=
  let _ := beneficiary in
  0.

Definition is_initialized : M bool :=
  exists_ Res.VestingPool get_admin_address.

End afjp_vesting.
End afjp_vesting.

(** * Observations and specifications *)

(** What a transaction establishes: [Q] on its result and final storage
    when it commits, [E] on the error when it aborts. *)
Definition post {A} (m : M A) (Q : A -> State -> Prop) (E : error -> Prop)
    (s : State) : Prop :=
  match m s with
  | Ok (a, s') => Q a s'
  | Err e => E e
  end.


Definition afjp_balance (s : State) (a : address) : Z :=
  default 0 (view Res.AFJPToken_store s !! a).

Definition juventud_balance (s : State) (a : address) : Z :=
  default 0 (view Res.JuventudToken_store s !! a).

(** The sum of all holder balances of a coin. *)
Definition sum_balances (m : gmap address Z) : Z :=
  map_fold (fun _ v acc => v + acc) 0 m.

(** The storage before any module is initialised. *)
Definition genesis : State :=
  {| Storage.clock := 0;
     Storage.coins :=
       {| Storage.coin.store_afjp := ∅; Storage.coin.store_juventud := ∅ |};
     Storage.token :=
       {| Storage.afjp_token.caps := ∅; Storage.afjp_token.info := ∅;
          Storage.afjp_token.events := ∅ |};
     Storage.juventud :=
       {| Storage.juventud_token.caps := ∅; Storage.juventud_token.info := ∅;
          Storage.juventud_token.discount := ∅;
          Storage.juventud_token.user_discount := ∅;
          Storage.juventud_token.events := ∅ |};
     Storage.staking :=
       {| Storage.afjp_staking.pool := ∅; Storage.afjp_staking.staker := ∅;
          Storage.afjp_staking.events := ∅ |};
     Storage.vesting :=
       {| Storage.afjp_vesting.pool := ∅; Storage.afjp_vesting.events := ∅ |} |}.

(** The addresses of the package's unit tests. *)
Definition the_admin : address := 0xAF%N.
Definition alice : address := 0x123%N.
Definition bob : address := 0x456%N.

(** The final storage of a committed run from [genesis]. *)
Definition outcome {A} (m : M A) : option State :=
  match m genesis with
  | Ok (_, s) => Some s
  | Err _ => None
  end.

(** ** The reward formulas shared by the staking functions *)

(** The guard under which [update_pool_rewards] and [calculate_rewards]
    add to the accumulator at time [now]. *)
Definition accrues (pool : Storage.afjp_staking.StakingPool) (now : Z) : bool :=
  (0 <? Storage.afjp_staking.total_staked pool)
  && (Storage.afjp_staking.last_update_time pool <? now).

(** The accumulator as both functions compute it for time [now]. *)
Definition projected_accumulator (pool : Storage.afjp_staking.StakingPool)
    (now : Z) : Z :=
  if accrues pool now then
    Storage.afjp_staking.accumulated_reward_per_token pool
    + (now - Storage.afjp_staking.last_update_time pool)
      * Storage.afjp_staking.reward_rate_per_second pool
  else Storage.afjp_staking.accumulated_reward_per_token pool.

(** No [u64] operation of that computation overflows. *)
Definition projection_fits (pool : Storage.afjp_staking.StakingPool) (now : Z) : Prop :=
  accrues pool now = true ->
  (now - Storage.afjp_staking.last_update_time pool)
  * Storage.afjp_staking.reward_rate_per_second pool <= MAX_U64
  /\ Storage.afjp_staking.accumulated_reward_per_token pool
     + (now - Storage.afjp_staking.last_update_time pool)
       * Storage.afjp_staking.reward_rate_per_second pool <= MAX_U64.

(** The value [calculate_rewards] returns for a staker at time [now]. *)
Definition pending_reward (pool : Storage.afjp_staking.StakingPool)
    (info : Storage.afjp_staking.StakerInfo) (now : Z) : Z :=
  Storage.afjp_staking.staked_amount info
  * (projected_accumulator pool now
     - Storage.afjp_staking.user_reward_per_token_paid info)
  / afjp_staking.REWARD_PRECISION.

(** No [u64] operation of [calculate_rewards] overflows or underflows. *)
Definition reward_fits (pool : Storage.afjp_staking.StakingPool)
    (info : Storage.afjp_staking.StakerInfo) (now : Z) : Prop :=
  projection_fits pool now
  /\ Storage.afjp_staking.user_reward_per_token_paid info
     <= projected_accumulator pool now
  /\ Storage.afjp_staking.staked_amount info
     * (projected_accumulator pool now
        - Storage.afjp_staking.user_reward_per_token_paid info) <= MAX_U64.

(** The pool as [update_pool_rewards] leaves it at time [now]. *)
Definition updated_pool (pool : Storage.afjp_staking.StakingPool) (now : Z)
    : Storage.afjp_staking.StakingPool :=
  afjp_staking.set_last_update_time now
    (afjp_staking.set_accumulated_reward_per_token
       (projected_accumulator pool now) pool).

(** ** Runs used below *)

(** Both tokens, the staking pool and the vesting pool initialised by the
    package's own account. *)
Definition deploy : M unit :=
  afjp_token.initialize the_admin the_admin ;;
  juventud_token.initialize the_admin the_admin ;;
  afjp_staking.initialize the_admin ;;
  afjp_vesting.initialize the_admin.

(** A holder converts 100 AFJP into 1000 JUVENTUD and spends 100 of them
    on a 10% discount of a rent of 1000. *)
Definition discount_run : M unit :=
  deploy ;;
  afjp_token.mint the_admin alice 1000 ;;
  juventud_token.burn_afjp_for_juventud the_admin alice 100 ;;
  juventud_token.apply_rental_discount the_admin alice 1000 10.

(** A pool whose rate is [rate], written into the storage directly:
    [initialize] computes [1200 * 10^6 / (10000 * 31536000)], which is 0,
    and no transaction produces a pool of another rate. *)
Definition with_reward_rate (afjp_crypto : address) (rate : Z) : M unit :=
  let* pool := borrow_global Res.StakingPool afjp_crypto in
  write_global Res.StakingPool afjp_crypto
    (afjp_staking.set_reward_rate_per_second rate pool).

(** [alice] holds 10000 AFJP and stakes 1000 of them at time 0; the clock
    then reads 100. *)
Definition staked_run : M unit :=
  deploy ;;
  afjp_token.mint the_admin alice 10000 ;;
  afjp_staking.stake_tokens the_admin alice 1000 ;;
  timestamp.set_time 100.

(** The same with the pool's rate set to 100 before the stake. *)
Definition staked_run_at_rate_100 : M unit :=
  deploy ;;
  with_reward_rate the_admin 100 ;;
  afjp_token.mint the_admin alice 10000 ;;
  afjp_staking.stake_tokens the_admin alice 1000 ;;
  timestamp.set_time 100.

(** [alice] holds 10000 AFJP and has not staked. *)
Definition funded_run : M unit :=
  deploy ;;
  afjp_token.mint the_admin alice 10000.

(** The storage a run from [genesis] ends in. *)
Definition final {A} (m : M A) : State := default genesis (outcome m).

(** [alice] stakes 1000 of her 10000 AFJP ... *)
Definition stake_run : M unit :=
  funded_run ;;
  afjp_staking.stake_tokens the_admin alice 1000.

(** ... and takes the same 1000 out again within the same second. *)
Definition stake_unstake_run : M unit :=
  stake_run ;;
  afjp_staking.unstake_tokens the_admin alice 1000.




(** The admin funds the pool with 1000000 after [staked_run], as
    [add_rewards] does it and as it would be with the update step first. *)
Definition add_rewards_run : M unit :=
  staked_run ;;
  afjp_staking.add_rewards the_admin 1000000.

Definition update_then_add_rewards_run : M unit :=
  staked_run ;;
  afjp_staking.update_pool_rewards the_admin ;;
  afjp_staking.add_rewards the_admin 1000000.

(** The same two on the pool of rate 100. *)
Definition add_rewards_run_at_rate_100 : M unit :=
  staked_run_at_rate_100 ;;
  afjp_staking.add_rewards the_admin 1000000.

Definition update_then_add_rewards_run_at_rate_100 : M unit :=
  staked_run_at_rate_100 ;;
  afjp_staking.update_pool_rewards the_admin ;;
  afjp_staking.add_rewards the_admin 1000000.

(** [alice] holds 1000 AFJP, both tokens being initialised. *)
Definition convertible_run : M unit :=
  deploy ;;
  afjp_token.mint the_admin alice 1000.

(** [alice] vests 5000 AFJP for [bob] at time 0; the clock then reads
    [t]. *)
Definition vesting_run (t : Z) : M unit :=
  funded_run ;;
  afjp_vesting.create_vesting_schedule the_admin alice bob 5000 ;;
  timestamp.set_time t.

(** The vested amount as the specification words it: nothing before the
    cliff, everything from the end on, linear from [start] in between. *)
Definition vested_amount_spec (amount start cliff end_time t : Z) : Z :=
  if t <? cliff then 0
  else if end_time <=? t then amount
  else amount * (t - start) / (end_time - start).


(** ** Sequences of calls *)

(** The entry functions of the primary token, as transactions sent to the
    chain. *)
Inductive token_call :=
| call_token_initialize (admin : address)
| call_mint (admin recipient : address) (amount : Z)
| call_burn (account : address) (amount : Z)
| call_transfer (from to : address) (amount : Z).

Definition run_token_call (afjp_crypto : address) (c : token_call) : M unit :=
  match c with
  | call_token_initialize admin => afjp_token.initialize afjp_crypto admin
  | call_mint admin recipient amount => afjp_token.mint admin recipient amount
  | call_burn account amount => afjp_token.burn afjp_crypto account amount
  | call_transfer from to amount => afjp_token.transfer afjp_crypto from to amount
  end.

(** A transaction that aborts leaves the storage as it was. *)
Definition commit_or_revert (m : M unit) (s : State) : State :=
  match m s with
  | Ok (_, s') => s'
  | Err _ => s
  end.

(** The primary token's counters agree with its balances, and its
    capabilities sit under the package address only. *)
Definition ledger_consistent (afjp_crypto : address) (s : State) : Prop :=
  (forall a, is_Some (view Res.token_TokenCapabilities s !! a) -> a = afjp_crypto)
  /\ sum_balances (view Res.AFJPToken_store s)
     = match view Res.token_TokenInfo s !! afjp_crypto with
       | Some token_info =>
           Storage.afjp_token.total_supply token_info
           - Storage.afjp_token.burned_amount token_info
       | None => 0
       end.

(** The entry functions of the staking module, and the clock moving
    between two transactions. *)
Inductive staking_call :=
| call_staking_initialize (admin : address)
| call_stake (user : address) (amount : Z)
| call_unstake (user : address) (amount : Z)
| call_claim (user : address)
| call_add_rewards (admin : address) (amount : Z)
| call_tick (t : Z).

Definition run_staking_call (afjp_crypto : address) (c : staking_call) : M unit :=
  match c with
  | call_staking_initialize admin => afjp_staking.initialize admin
  | call_stake user amount => afjp_staking.stake_tokens afjp_crypto user amount
  | call_unstake user amount => afjp_staking.unstake_tokens afjp_crypto user amount
  | call_claim user => afjp_staking.claim_rewards afjp_crypto user
  | call_add_rewards admin amount => afjp_staking.add_rewards admin amount
  | call_tick t => timestamp.set_time t
  end.

(** The [u64] argument of [add_rewards] is not negative. *)
Definition staking_call_in_range (c : staking_call) : Prop :=
  match c with
  | call_add_rewards _ amount => 0 <= amount
  | _ => True
  end.

(** Every pool has rate 0 and an accumulator at 0, and every checkpoint
    sits at 0. *)
Definition no_yield (s : State) : Prop :=
  map_Forall (fun _ pool =>
                Storage.afjp_staking.reward_rate_per_second pool = 0
                /\ Storage.afjp_staking.accumulated_reward_per_token pool = 0)
    (view Res.StakingPool s)
  /\ map_Forall (fun _ info => Storage.afjp_staking.user_reward_per_token_paid info = 0)
       (view Res.StakerInfo s).

(** The sum of all staked amounts. *)
Definition sum_staked (m : gmap address Storage.afjp_staking.StakerInfo) : Z :=
  map_fold (fun _ info acc => Storage.afjp_staking.staked_amount info + acc) 0 m.

(** The pool's [total_staked] is the sum of the checkpoints; without a pool
    under the package address there is no checkpoint. *)
Definition stakes_consistent (afjp_crypto : address) (s : State) : Prop :=
  match view Res.StakingPool s !! afjp_crypto with
  | Some pool => sum_staked (view Res.StakerInfo s) = Storage.afjp_staking.total_staked pool
  | None => view Res.StakerInfo s = ∅
  end.

(** [alice] stakes 1000, takes them out, and stakes 1000 again. *)
Definition restaked_run : M unit :=
  stake_unstake_run ;;
  afjp_staking.stake_tokens the_admin alice 1000.

(** [alice] holds 1000 JUVENTUD after converting 100 AFJP. *)
Definition converted_run : M unit :=
  convertible_run ;;
  juventud_token.burn_afjp_for_juventud the_admin alice 100.

(** [alice] spends 500 JUVENTUD on a 50% discount of a rent of 1000. *)
Definition discounted_run : M unit :=
  converted_run ;;
  juventud_token.apply_rental_discount the_admin alice 1000 50.

(** No AFJP balance is negative. *)
Definition balances_non_negative (s : State) : Prop :=
  map_Forall (fun _ v => 0 <= v) (view Res.AFJPToken_store s).

(** ** The storages the program can reach *)


















(** * Properties *)

(** ** Rules for stepping through a transaction *)

Section post_rules.
Context {A B : Type}.
Implicit Types (Q : A -> State -> Prop) (E : error -> Prop) (s : State).

Lemma post_ret (a : A) Q E s : Q a s -> post (ret a) Q E s.
Proof. done. Qed.

Lemma post_bind (m : M A) (k : A -> M B) (R : B -> State -> Prop) E s :
  post m (fun a s' => post (k a) R E s') E s -> post (bind m k) R E s.
Proof. unfold post, bind. destruct (m s) as [[a s']|e]; done. Qed.

Lemma post_abort (e : error) Q E s : E e -> post (abort e) Q E s.
Proof. done. Qed.

Lemma post_if (c : bool) (m1 m2 : M A) Q E s :
  (c = true -> post m1 Q E s) -> (c = false -> post m2 Q E s) ->
  post (if c then m1 else m2) Q E s.
Proof. destruct c; auto. Qed.

Lemma post_weaken (m : M A) Q Q' E E' s :
  post m Q E s -> (forall a s', Q a s' -> Q' a s') -> (forall e, E e -> E' e) ->
  post m Q' E' s.
Proof. unfold post. destruct (m s) as [[a s']|e]; auto. Qed.

(** A transaction that establishes [Q] and cannot abort commits. *)
Lemma post_commits (m : M A) Q s :
  post m Q (fun _ => False) s -> exists a s', m s = Ok (a, s') /\ Q a s'.
Proof. unfold post. destruct (m s) as [[a s']|e]; [eauto | done]. Qed.

Lemma post_committed (m : M A) Q s a s' :
  post m Q (fun _ => True) s -> m s = Ok (a, s') -> Q a s'.
Proof. unfold post. intros H Hm. by rewrite Hm in H. Qed.

End post_rules.

Lemma post_assert loc (cond : bool) code (Q : unit -> State -> Prop) E s :
  (cond = true -> Q tt s) ->
  (cond = false -> E (Abort loc code)) ->
  post (assert_at loc cond code) Q E s.
Proof. destruct cond; unfold post; cbn; auto. Qed.

Lemma post_exists {R} (r : resource R) a (Q : bool -> State -> Prop) E s :
  Q (bool_decide (is_Some (view r s !! a))) s -> post (exists_ r a) Q E s.
Proof. done. Qed.

Lemma post_borrow {R} (r : resource R) a (Q : R -> State -> Prop) E s :
  (forall v, view r s !! a = Some v -> Q v s) ->
  (view r s !! a = None -> E MISSING_DATA) ->
  post (borrow_global r a) Q E s.
Proof. unfold post, borrow_global. destruct (view r s !! a); auto. Qed.

Lemma post_write {R} (r : resource R) a v (Q : unit -> State -> Prop) E s :
  Q tt (update r (<[a := v]> (view r s)) s) -> post (write_global r a v) Q E s.
Proof. done. Qed.

Lemma post_move_to {R} (r : resource R) a v (Q : unit -> State -> Prop) E s :
  (view r s !! a = None -> Q tt (update r (<[a := v]> (view r s)) s)) ->
  (is_Some (view r s !! a) -> E RESOURCE_ALREADY_EXISTS) ->
  post (move_to r a v) Q E s.
Proof. unfold post, move_to. destruct (view r s !! a); eauto. Qed.

Lemma post_now (Q : Z -> State -> Prop) E s :
  Q (Storage.clock s) s -> post timestamp.now_seconds Q E s.
Proof. done. Qed.

Lemma post_add x y (Q : Z -> State -> Prop) E s :
  (x + y <= MAX_U64 -> Q (x + y) s) ->
  (MAX_U64 < x + y -> E ARITHMETIC_ERROR) ->
  post (add_u64 x y) Q E s.
Proof. unfold post, add_u64. destruct (Z.leb_spec (x + y) MAX_U64); cbn; auto. Qed.

Lemma post_sub x y (Q : Z -> State -> Prop) E s :
  (y <= x -> Q (x - y) s) ->
  (x < y -> E ARITHMETIC_ERROR) ->
  post (sub_u64 x y) Q E s.
Proof. unfold post, sub_u64. destruct (Z.leb_spec y x); cbn; auto. Qed.

Lemma post_mul x y (Q : Z -> State -> Prop) E s :
  (x * y <= MAX_U64 -> Q (x * y) s) ->
  (MAX_U64 < x * y -> E ARITHMETIC_ERROR) ->
  post (mul_u64 x y) Q E s.
Proof. unfold post, mul_u64. destruct (Z.leb_spec (x * y) MAX_U64); cbn; auto. Qed.

Lemma post_div x y (Q : Z -> State -> Prop) E s :
  (y <> 0 -> Q (x / y) s) ->
  (y = 0 -> E ARITHMETIC_ERROR) ->
  post (div_u64 x y) Q E s.
Proof. unfold post, div_u64. destruct (Z.eqb_spec y 0); cbn; auto. Qed.

Lemma post_balance T a (Q : Z -> State -> Prop) E s :
  Q (default 0 (view T s !! a)) s -> post (coin.balance T a) Q E s.
Proof. done. Qed.

Lemma post_destruct {A} (m : M A) (Q : A -> State -> Prop) E s :
  (forall a s', m s = Ok (a, s') -> Q a s') ->
  (forall e, m s = Err e -> E e) ->
  post m Q E s.
Proof. unfold post. destruct (m s) as [[a s']|e]; auto. Qed.

Lemma post_exists_cases {R} (r : resource R) a (Q : bool -> State -> Prop) E s :
  (forall v, view r s !! a = Some v -> Q true s) ->
  (view r s !! a = None -> Q false s) ->
  post (exists_ r a) Q E s.
Proof.
  intros Hsome Hnone. apply post_exists.
  destruct (view r s !! a) as [v|] eqn:Hv.
  - rewrite bool_decide_eq_true_2 by eauto. eauto.
  - rewrite bool_decide_eq_false_2 by (by intros [? ?]). eauto.
Qed.

Lemma post_exists_known {R} (r : resource R) a v (Q : bool -> State -> Prop) E s :
  view r s !! a = Some v -> Q true s -> post (exists_ r a) Q E s.
Proof. intros Hv HQ. apply post_exists. by rewrite bool_decide_eq_true_2 by eauto. Qed.

Lemma post_exists_absent {R} (r : resource R) a (Q : bool -> State -> Prop) E s :
  view r s !! a = None -> Q false s -> post (exists_ r a) Q E s.
Proof.
  intros Hv HQ. apply post_exists.
  rewrite bool_decide_eq_false_2; [done|]. rewrite Hv. by intros [? ?].
Qed.

Lemma post_borrow_known {R} (r : resource R) a v (Q : R -> State -> Prop) E s :
  view r s !! a = Some v -> Q v s -> post (borrow_global r a) Q E s.
Proof. intros Hv HQ. unfold post, borrow_global. by rewrite Hv. Qed.

Lemma post_move_to_fresh {R} (r : resource R) a v (Q : unit -> State -> Prop) E s :
  view r s !! a = None ->
  Q tt (update r (<[a := v]> (view r s)) s) ->
  post (move_to r a v) Q E s.
Proof. intros Hv HQ. unfold post, move_to. by rewrite Hv. Qed.

(** Reading a field that a write to another resource left alone. *)
Ltac norm_state :=
  repeat first
    [ progress change (view ?r (update ?r ?m ?s)) with m in *
    | progress change (view ?r (update ?r' ?m ?s)) with (view r s) in *
    | progress change (Storage.clock (update ?r ?m ?s)) with (Storage.clock s) in * ].

Ltac known_lookup :=
  norm_state; rewrite ?lookup_insert_eq; first [reflexivity | eassumption].

Ltac mstep :=
  cbn [negb andb orb];
  lazymatch goal with
  | |- post (bind _ _) _ _ _ => apply post_bind
  | |- post (ret _) _ _ _ => apply post_ret
  | |- post (abort _) _ _ _ => apply post_abort
  | |- post (assert_at _ _ _) _ _ _ => apply post_assert; intros ?
  | |- post (exists_ _ _) _ _ _ =>
      first [ eapply post_exists_known; [known_lookup|]
            | eapply post_exists_absent; [known_lookup|]
            | apply post_exists_cases; [intros ? ? | intros ?] ]
  | |- post (borrow_global _ _) _ _ _ =>
      first [ eapply post_borrow_known; [known_lookup|]
            | apply post_borrow; [intros ? ? | intros ?] ]
  | |- post (write_global _ _ _) _ _ _ => apply post_write
  | |- post (move_to _ _ _) _ _ _ =>
      first [ eapply post_move_to_fresh; [known_lookup|]
            | apply post_move_to; intros ? ]
  | |- post timestamp.now_seconds _ _ _ => apply post_now
  | |- post (add_u64 _ _) _ _ _ => apply post_add; intros ?
  | |- post (sub_u64 _ _) _ _ _ => apply post_sub; intros ?
  | |- post (mul_u64 _ _) _ _ _ => apply post_mul; intros ?
  | |- post (div_u64 _ _) _ _ _ => apply post_div; intros ?
  | |- post (coin.balance _ _) _ _ _ => apply post_balance
  | |- post (coin.mint _) _ _ _ => apply post_ret
  | |- post (coin.burn _) _ _ _ => apply post_ret
  | |- post (if _ then _ else _) _ _ _ => apply post_if; intros ?
  end; norm_state.

Ltac msteps := repeat mstep.

(** ** The primary token *)



(** C8.  A caller other than the admin gets [E_NOT_INITIALIZED] from
    [mint], not [E_NOT_ADMIN]: the capabilities are looked up under the
    caller's own address, so the admin check that follows is never reached.
    Here the token is initialised by [the_admin] and [alice] calls [mint]. *)
Theorem mint_by_non_admin_reports_not_initialized :
  exists s0,
    afjp_token.initialize the_admin the_admin genesis = Ok (tt, s0)
    /\ afjp_token.is_initialized the_admin s0 = Ok (true, s0)
    /\ afjp_token.mint alice alice 1000 s0
       = Err (Abort at_afjp_token afjp_token.E_NOT_INITIALIZED)
    /\ afjp_token.E_NOT_INITIALIZED <> afjp_token.E_NOT_ADMIN.
Proof.
  eexists. split; [vm_compute; reflexivity|].
  split; [vm_compute; reflexivity|].
  split; [vm_compute; reflexivity|done].
Qed.

(** For any storage: a caller with no [TokenCapabilities] under its own
    address is turned away by the first assertion of [mint]. *)
Lemma mint_without_capabilities (admin recipient : address) (amount : Z) (s : State) :
  view Res.token_TokenCapabilities s !! admin = None ->
  afjp_token.mint admin recipient amount s
  = Err (Abort at_afjp_token afjp_token.E_NOT_INITIALIZED).
Proof.
  intros Hnone. unfold afjp_token.mint, bind at 1, exists_.
  rewrite Hnone, bool_decide_eq_false_2; [done|].
  by intros [? ?].
Qed.

(** ** The derived token *)

(** C2.  The derived token's counters lose track of its balances: after
    [discount_run] the holders own 900 JUVENTUD in total, while
    [total_supply - total_burned] still reads 1000, because
    [apply_rental_discount] burns coins without touching [total_burned].
    The primary token's counters agree with its balances in the same
    storage. *)
Theorem rental_discount_breaks_supply_accounting :
  exists s info token_info,
    outcome discount_run = Some s
    /\ view Res.juventud_TokenInfo s !! the_admin = Some info
    /\ sum_balances (view Res.JuventudToken_store s) = 900
    /\ juventud_token.J.total_supply info - juventud_token.J.total_burned info = 1000
    /\ view Res.token_TokenInfo s !! the_admin = Some token_info
    /\ sum_balances (view Res.AFJPToken_store s)
       = afjp_token.T.total_supply token_info - afjp_token.T.burned_amount token_info.
Proof.
  eexists _, _, _.
  split; [vm_compute; reflexivity|].
  split; [vm_compute; reflexivity|].
  split; [vm_compute; reflexivity|].
  split; [vm_compute; reflexivity|].
  split; [vm_compute; reflexivity|].
  vm_compute; reflexivity.
Qed.

(** ** The staking pool *)

Lemma set_accumulated_same pool :
  afjp_staking.set_accumulated_reward_per_token
    (Storage.afjp_staking.accumulated_reward_per_token pool) pool = pool.
Proof. by destruct pool. Qed.

(** [update_pool_rewards], outcome by outcome. *)
Lemma post_update_pool_rewards afjp_crypto (Q : unit -> State -> Prop) E s :
  (view Res.StakingPool s !! afjp_crypto = None -> Q tt s) ->
  (forall pool,
     view Res.StakingPool s !! afjp_crypto = Some pool ->
     projection_fits pool (Storage.clock s) ->
     Q tt (update Res.StakingPool
             (<[afjp_crypto := updated_pool pool (Storage.clock s)]>
                (view Res.StakingPool s)) s)) ->
  (forall pool,
     view Res.StakingPool s !! afjp_crypto = Some pool ->
     ~ projection_fits pool (Storage.clock s) -> E ARITHMETIC_ERROR) ->
  post (afjp_staking.update_pool_rewards afjp_crypto) Q E s.
Proof.
  intros Hnone Hsome Hover.
  unfold afjp_staking.update_pool_rewards, afjp_staking.get_admin_address.
  msteps.
  - (* accrual, nothing overflows *)
    match goal with Hv : view _ _ !! _ = Some ?v, Ha : _ && _ = true |- _ =>
      specialize (Hsome v Hv); unfold updated_pool, projected_accumulator, accrues in Hsome;
      rewrite Ha in Hsome; apply Hsome; unfold projection_fits; auto end.
  - (* the sum overflows *)
    match goal with Hv : view _ _ !! _ = Some ?v, Ha : _ && _ = true |- _ =>
      apply (Hover v Hv); unfold projection_fits, accrues; rewrite Ha; intros Hf;
      specialize (Hf eq_refl); lia end.
  - (* the product overflows *)
    match goal with Hv : view _ _ !! _ = Some ?v, Ha : _ && _ = true |- _ =>
      apply (Hover v Hv); unfold projection_fits, accrues; rewrite Ha; intros Hf;
      specialize (Hf eq_refl); lia end.
  - (* the guard holds, so the subtraction cannot underflow *)
    lia.
  - (* no accrual *)
    match goal with Hv : view _ _ !! _ = Some ?v, Ha : _ && _ = false |- _ =>
      specialize (Hsome v Hv); unfold updated_pool, projected_accumulator, accrues in Hsome;
      rewrite Ha, set_accumulated_same in Hsome; apply Hsome;
      unfold projection_fits, accrues; rewrite Ha; done end.
  - auto.
Qed.

(** [calculate_rewards], outcome by outcome: it hands back the storage it
    was given. *)
Lemma post_calculate_rewards afjp_crypto user (Q : Z -> State -> Prop) E s :
  (view Res.StakerInfo s !! user = None
   \/ view Res.StakingPool s !! afjp_crypto = None -> Q 0 s) ->
  (forall pool info,
     view Res.StakingPool s !! afjp_crypto = Some pool ->
     view Res.StakerInfo s !! user = Some info ->
     reward_fits pool info (Storage.clock s) ->
     Q (pending_reward pool info (Storage.clock s)) s) ->
  (forall pool info,
     view Res.StakingPool s !! afjp_crypto = Some pool ->
     view Res.StakerInfo s !! user = Some info ->
     ~ reward_fits pool info (Storage.clock s) -> E ARITHMETIC_ERROR) ->
  post (afjp_staking.calculate_rewards afjp_crypto user) Q E s.
Proof.
  intros Hnone Hsome Hover.
  unfold afjp_staking.calculate_rewards, afjp_staking.get_admin_address.
  msteps.
  all: try (apply Hnone; auto; fail).
  all: try (exfalso; unfold afjp_staking.REWARD_PRECISION in *; lia).
  all: match goal with
       | Hp : view Res.StakingPool _ !! _ = Some ?p,
         Hi : view Res.StakerInfo _ !! _ = Some ?i |- _ =>
           specialize (Hsome p i Hp Hi); specialize (Hover p i Hp Hi)
       end.
  all: unfold reward_fits, projection_fits, pending_reward, projected_accumulator,
         accrues in *.
  all: match goal with
       | Ha : _ && _ = _ |- _ => rewrite Ha in Hsome, Hover
       end.
  all: first [ apply Hsome; repeat split; (done || lia)
             | apply Hover; intros (Hf & ? & ?); try specialize (Hf eq_refl); lia ].
Qed.

Lemma accrues_updated pool now : accrues (updated_pool pool now) now = false.
Proof. unfold accrues, updated_pool; cbn. by rewrite Z.ltb_irrefl, andb_false_r. Qed.

Lemma projected_updated pool now :
  projected_accumulator (updated_pool pool now) now = projected_accumulator pool now.
Proof. unfold projected_accumulator at 1. by rewrite accrues_updated. Qed.

Lemma pending_updated pool info now :
  pending_reward (updated_pool pool now) info now = pending_reward pool info now.
Proof. unfold pending_reward. by rewrite projected_updated. Qed.

Lemma reward_fits_updated pool info now :
  projection_fits pool now ->
  reward_fits (updated_pool pool now) info now <-> reward_fits pool info now.
Proof.
  intros Hfit. unfold reward_fits. rewrite projected_updated.
  split; intros (? & ? & ?).
  - split; [exact Hfit | by split].
  - split; [|by split].
    unfold projection_fits. by rewrite accrues_updated.
Qed.

Ltac tidy :=
  norm_state;
  repeat match goal with
    | H : <[?a := _]> _ !! ?a = Some _ |- _ =>
        rewrite lookup_insert_eq in H; injection H as <-
    | H : <[?a := _]> _ !! ?a = None |- _ =>
        rewrite lookup_insert_eq in H; discriminate H
    | H1 : ?x = Some ?a, H2 : ?x = Some ?b |- _ =>
        rewrite H1 in H2; injection H2 as <-
    | H1 : ?x = Some _, H2 : ?x = None |- _ =>
        rewrite H1 in H2; discriminate H2
    end.

(** Stepping through the staking module's own calls. *)
Ltac sstep :=
  lazymatch goal with
  | |- post (afjp_staking.update_pool_rewards _) _ _ _ =>
      apply post_update_pool_rewards; [intros ? | intros ? ? ? | intros ? ? ?]
  | |- post (afjp_staking.calculate_rewards _ _) _ _ _ =>
      apply post_calculate_rewards; [intros ? | intros ? ? ? ? ? | intros ? ? ? ? ?]
  | |- _ => mstep
  end; tidy.

Ltac ssteps := repeat sstep.


(** What a committed [claim_rewards_internal] has done. *)
Lemma claim_rewards_internal_committed afjp_crypto user s :
  post (afjp_staking.claim_rewards_internal afjp_crypto user)
    (fun _ s' =>
       exists pool info events,
         view Res.StakingPool s !! afjp_crypto = Some pool
         /\ view Res.StakerInfo s !! user = Some info
         /\ view Res.StakingEvents s !! afjp_crypto = Some events
         /\ reward_fits pool info (Storage.clock s)
         /\ 0 < pending_reward pool info (Storage.clock s)
         /\ view Res.StakerInfo s'
            = <[user :=
                  afjp_staking.set_user_reward_per_token_paid
                    (projected_accumulator pool (Storage.clock s))
                    (afjp_staking.set_total_rewards_claimed
                       (Storage.afjp_staking.total_rewards_claimed info
                        + pending_reward pool info (Storage.clock s)) info)]>
                (view Res.StakerInfo s)
         /\ view Res.StakingPool s'
            = <[afjp_crypto :=
                  afjp_staking.set_total_rewards_distributed
                    (Storage.afjp_staking.total_rewards_distributed pool
                     + pending_reward pool info (Storage.clock s))
                    (updated_pool pool (Storage.clock s))]>
                (view Res.StakingPool s)
         /\ view Res.StakingEvents s'
            = <[afjp_crypto :=
                  {| Storage.afjp_staking.stake_events :=
                       Storage.afjp_staking.stake_events events;
                     Storage.afjp_staking.unstake_events :=
                       Storage.afjp_staking.unstake_events events;
                     Storage.afjp_staking.claim_events :=
                       Storage.afjp_staking.claim_events events
                       ++ [Storage.afjp_staking.claim_event user
                             (pending_reward pool info (Storage.clock s))
                             (Storage.clock s)] |}]>
                (view Res.StakingEvents s)
         /\ Storage.coins s' = Storage.coins s
         /\ Storage.token s' = Storage.token s
         /\ Storage.juventud s' = Storage.juventud s
         /\ Storage.vesting s' = Storage.vesting s
         /\ Storage.clock s' = Storage.clock s)
    (fun _ => True) s.
Proof.
  unfold afjp_staking.claim_rewards_internal, afjp_staking.assert_,
    afjp_staking.get_admin_address.
  ssteps; try done.
  rewrite pending_updated in *.
  match goal with
  | Hf : projection_fits ?p ?n, H : reward_fits (updated_pool ?p ?n) _ _ |- _ =>
      apply (proj1 (reward_fits_updated _ _ _ Hf)) in H
  end.
  eexists _, _, _. rewrite insert_insert_eq.
  split_and!; try eassumption; try reflexivity.
  lia.
Qed.

Lemma calculate_rewards_committed afjp_crypto user s r s' :
  afjp_staking.calculate_rewards afjp_crypto user s = Ok (r, s') ->
  s' = s
  /\ match view Res.StakingPool s !! afjp_crypto, view Res.StakerInfo s !! user with
     | Some pool, Some info =>
         reward_fits pool info (Storage.clock s)
         /\ r = pending_reward pool info (Storage.clock s)
     | _, _ => r = 0
     end.
Proof.
  intros Hrun.
  refine (post_committed _
    (fun r s' =>
       s' = s
       /\ match view Res.StakingPool s !! afjp_crypto, view Res.StakerInfo s !! user with
          | Some pool, Some info =>
              reward_fits pool info (Storage.clock s)
              /\ r = pending_reward pool info (Storage.clock s)
          | _, _ => r = 0
          end) _ _ _ _ Hrun).
  apply post_calculate_rewards; [| |done].
  - intros [Hn|Hn]; rewrite Hn; [|done]. by destruct (view Res.StakingPool s !! afjp_crypto).
  - intros pool info Hp Hi Hfit. by rewrite Hp, Hi.
Qed.


(** With nothing pending, [claim_rewards_internal] aborts with
    [E_NO_REWARDS]. *)
Lemma claim_rewards_internal_nothing afjp_crypto user s s' :
  afjp_staking.calculate_rewards afjp_crypto user s = Ok (0, s') ->
  afjp_staking.claim_rewards_internal afjp_crypto user s
  = Err (Abort at_afjp_staking afjp_staking.E_NO_REWARDS).
Proof.
  intros Hcalc. apply calculate_rewards_committed in Hcalc as [_ Hcalc].
  assert (Hpost : post (afjp_staking.claim_rewards_internal afjp_crypto user)
            (fun _ _ => False)
            (fun e => e = Abort at_afjp_staking afjp_staking.E_NO_REWARDS) s).
  { unfold afjp_staking.claim_rewards_internal, afjp_staking.assert_,
      afjp_staking.get_admin_address.
    ssteps; try done.
    all: repeat match goal with
           | H : view _ _ !! _ = Some _ |- _ => rewrite H in Hcalc
           | H : view _ _ !! _ = None |- _ => rewrite H in Hcalc
           end.
    all: try rewrite pending_updated in *.
    all: try (destruct Hcalc as [Hfit Hzero]).
    all: try lia.
    all: try match goal with
           | Hf : projection_fits ?p ?n, H : ~ reward_fits (updated_pool ?p ?n) _ _ |- _ =>
               exfalso; apply H; by apply reward_fits_updated
           | H : ~ projection_fits _ _ |- _ => exfalso; apply H; apply Hfit
           | H : _ \/ _ |- _ => destruct H; congruence
           end. }
  unfold post in Hpost.
  destruct (afjp_staking.claim_rewards_internal afjp_crypto user s) as [[[] ?]|e];
    [done | by subst].
Qed.


(** What a committed [stake_tokens] has done. *)
Lemma stake_tokens_committed afjp_crypto user amount s :
  post (afjp_staking.stake_tokens afjp_crypto user amount)
    (fun _ s' =>
       exists pool pool' info',
         view Res.StakingPool s !! afjp_crypto = Some pool
         /\ afjp_staking.MIN_STAKE_AMOUNT <= amount
         /\ amount <= afjp_balance s user
         /\ view Res.AFJPToken_store s'
            = <[afjp_crypto :=
                  default 0 (<[user := afjp_balance s user - amount]>
                               (view Res.AFJPToken_store s) !! afjp_crypto) + amount]>
                (<[user := afjp_balance s user - amount]> (view Res.AFJPToken_store s))
         /\ view Res.StakingPool s' = <[afjp_crypto := pool']> (view Res.StakingPool s)
         /\ Storage.afjp_staking.last_update_time pool' = Storage.clock s
         /\ Storage.afjp_staking.accumulated_reward_per_token pool'
            = projected_accumulator pool (Storage.clock s)
         /\ Storage.afjp_staking.total_staked pool'
            = Storage.afjp_staking.total_staked pool + amount
         /\ view Res.StakerInfo s' = <[user := info']> (view Res.StakerInfo s)
         /\ Storage.afjp_staking.user_reward_per_token_paid info'
            = projected_accumulator pool (Storage.clock s)
         /\ match view Res.StakerInfo s !! user with
            | Some info =>
                Storage.afjp_staking.staked_amount info'
                = Storage.afjp_staking.staked_amount info + amount
                /\ Storage.afjp_staking.total_rewards_claimed info'
                   = Storage.afjp_staking.total_rewards_claimed info
            | None =>
                Storage.afjp_staking.staked_amount info' = amount
                /\ Storage.afjp_staking.total_rewards_claimed info' = 0
            end
         /\ Storage.clock s' = Storage.clock s)
    (fun _ => True) s.
Proof.
  unfold afjp_staking.stake_tokens, afjp_staking.assert_, afjp_staking.get_admin_address,
    afjp_token.get_balance, coin.transfer, coin.withdraw, coin.deposit.
  ssteps; try done.
  all: eexists _, _, _; rewrite insert_insert_eq.
  all: repeat match goal with
         | H : view Res.StakerInfo _ !! _ = _ |- _ => rewrite H
         end.
  all: unfold afjp_balance; split_and!; try eassumption; try reflexivity; lia.
Qed.

(** What a committed [unstake_tokens] has done: the coin store is among
    the things it leaves alone. *)
Lemma unstake_tokens_committed afjp_crypto user amount s :
  post (afjp_staking.unstake_tokens afjp_crypto user amount)
    (fun _ s' =>
       exists pool pool' info info',
         view Res.StakingPool s !! afjp_crypto = Some pool
         /\ view Res.StakerInfo s !! user = Some info
         /\ 0 < amount <= Storage.afjp_staking.staked_amount info
         /\ view Res.StakingPool s' = <[afjp_crypto := pool']> (view Res.StakingPool s)
         /\ Storage.afjp_staking.last_update_time pool' = Storage.clock s
         /\ Storage.afjp_staking.accumulated_reward_per_token pool'
            = projected_accumulator pool (Storage.clock s)
         /\ Storage.afjp_staking.total_staked pool'
            = Storage.afjp_staking.total_staked pool - amount
         /\ view Res.StakerInfo s' = <[user := info']> (view Res.StakerInfo s)
         /\ Storage.afjp_staking.user_reward_per_token_paid info'
            = projected_accumulator pool (Storage.clock s)
         /\ Storage.afjp_staking.staked_amount info'
            = Storage.afjp_staking.staked_amount info - amount
         /\ Storage.afjp_staking.total_rewards_claimed info'
            = Storage.afjp_staking.total_rewards_claimed info
         /\ Storage.coins s' = Storage.coins s
         /\ Storage.clock s' = Storage.clock s)
    (fun _ => True) s.
Proof.
  unfold afjp_staking.unstake_tokens, afjp_staking.assert_,
    afjp_staking.get_admin_address.
  ssteps; try done.
  all: eexists _, _, _, _; rewrite insert_insert_eq.
  all: split_and!; try eassumption; try reflexivity; lia.
Qed.


(** ** Funding the pool *)

(** [add_rewards], when it commits, has written nothing but the rate: the
    accumulator and [last_update_time] are as they were, and the rate is
    the sum capped at [MAX_APY * P / (10000 * SECONDS_PER_YEAR)], which
    integer division makes 0. *)
Lemma add_rewards_committed admin amount s :
  post (afjp_staking.add_rewards admin amount)
    (fun _ s' =>
       exists pool,
         view Res.StakingPool s !! admin = Some pool
         /\ Storage.afjp_staking.admin pool = admin
         /\ if 0 <? Storage.afjp_staking.total_staked pool then
              s' = update Res.StakingPool
                     (<[admin :=
                          afjp_staking.set_reward_rate_per_second
                            (Z.min (Storage.afjp_staking.reward_rate_per_second pool
                                    + amount * afjp_staking.REWARD_PRECISION
                                      / (Storage.afjp_staking.total_staked pool
                                         * afjp_staking.SECONDS_PER_YEAR))
                                   0)
                            pool]> (view Res.StakingPool s)) s
            else s' = s)
    (fun _ => True) s.
Proof.
  unfold afjp_staking.add_rewards, afjp_staking.assert_.
  msteps; try done.
  all: eexists; split; [eassumption|].
  all: match goal with H : bool_decide _ = true |- _ =>
         apply bool_decide_eq_true in H end.
  all: split; [assumption|].
  all: match goal with H : (0 <? _) = _ |- _ => rewrite H end.
  all: try reflexivity.
  f_equal.
  change (afjp_staking.MAX_APY * afjp_staking.REWARD_PRECISION
          / (10000 * afjp_staking.SECONDS_PER_YEAR)) with 0.
  match goal with |- context [0 <? ?x] => destruct (Z.ltb_spec 0 x) as [Hcap|Hcap] end.
  all: cbn [Storage.afjp_staking.reward_rate_per_second
            afjp_staking.set_reward_rate_per_second] in Hcap.
  - rewrite Z.min_r by lia. match goal with p : Storage.afjp_staking.StakingPool |- _ =>
      by destruct p end.
  - rewrite Z.min_l by lia. done.
Qed.

(** C9.  [add_rewards] does not run the update step.  After [staked_run]
    (1000 staked at time 0, clock at 100) it leaves [last_update_time] at 0
    where the update step would have set it to 100.  On the pool of rate
    100 the interval already elapsed is then accrued at the new rate: the
    10 pending before the call read 0 after it, and 10 had the update step
    run first. *)
Theorem add_rewards_skips_the_update_step :
  (exists pool pool',
     afjp_staking.add_rewards the_admin 1000000 (final staked_run)
     = Ok (tt, final add_rewards_run)
     /\ view Res.StakingPool (final add_rewards_run) !! the_admin = Some pool
     /\ Storage.afjp_staking.last_update_time pool = 0
     /\ (let* _ := afjp_staking.update_pool_rewards the_admin in
         afjp_staking.add_rewards the_admin 1000000) (final staked_run)
        = Ok (tt, final update_then_add_rewards_run)
     /\ view Res.StakingPool (final update_then_add_rewards_run) !! the_admin
        = Some pool'
     /\ Storage.afjp_staking.last_update_time pool' = 100)
  /\ afjp_staking.calculate_rewards the_admin alice (final staked_run_at_rate_100)
     = Ok (10, final staked_run_at_rate_100)
  /\ afjp_staking.add_rewards the_admin 1000000 (final staked_run_at_rate_100)
     = Ok (tt, final add_rewards_run_at_rate_100)
  /\ afjp_staking.calculate_rewards the_admin alice (final add_rewards_run_at_rate_100)
     = Ok (0, final add_rewards_run_at_rate_100)
  /\ afjp_staking.calculate_rewards the_admin alice
       (final update_then_add_rewards_run_at_rate_100)
     = Ok (10, final update_then_add_rewards_run_at_rate_100).
Proof.
  split.
  - eexists _, _. split_and!; vm_compute; reflexivity.
  - split_and!; vm_compute; reflexivity.
Qed.

(** ** The exchange *)

(** C6.  [burn_afjp_for_juventud] turns down less than [MIN_BURN_AMOUNT];
    otherwise, both tokens being initialised, the balance covering the
    amount and no counter overflowing, it commits in one transaction with
    the AFJP burned from the holder and added to the primary token's
    [burned_amount], [afjp_amount * exchange_rate] JUVENTUD credited to the
    holder and added to the derived token's [total_supply], and
    [total_afjp_burned] raised by the amount.  An abort carries no storage,
    so none of it is applied in part. *)
Theorem burn_afjp_for_juventud_converts (afjp_crypto user : address)
    (afjp_amount : Z) (s : State) :
  (afjp_amount < juventud_token.MIN_BURN_AMOUNT ->
   juventud_token.burn_afjp_for_juventud afjp_crypto user afjp_amount s
   = Err (Abort at_juventud_token juventud_token.E_INVALID_AMOUNT))
  /\ (forall info events token_info token_events,
        juventud_token.MIN_BURN_AMOUNT <= afjp_amount ->
        afjp_amount <= afjp_balance s user ->
        view Res.juventud_TokenCapabilities s !! afjp_crypto = Some tt ->
        view Res.juventud_TokenInfo s !! afjp_crypto = Some info ->
        view Res.juventud_TokenEvents s !! afjp_crypto = Some events ->
        view Res.token_TokenCapabilities s !! afjp_crypto = Some tt ->
        view Res.token_TokenInfo s !! afjp_crypto = Some token_info ->
        view Res.token_TokenEvents s !! afjp_crypto = Some token_events ->
        afjp_amount * Storage.juventud_token.exchange_rate info <= MAX_U64 ->
        juventud_balance s user
          + afjp_amount * Storage.juventud_token.exchange_rate info <= MAX_U64 ->
        Storage.afjp_token.burned_amount token_info + afjp_amount <= MAX_U64 ->
        Storage.juventud_token.total_supply info
          + afjp_amount * Storage.juventud_token.exchange_rate info <= MAX_U64 ->
        Storage.juventud_token.total_afjp_burned info + afjp_amount <= MAX_U64 ->
        exists s' info' token_info',
          juventud_token.burn_afjp_for_juventud afjp_crypto user afjp_amount s
          = Ok (tt, s')
          /\ view Res.AFJPToken_store s'
             = <[user := afjp_balance s user - afjp_amount]> (view Res.AFJPToken_store s)
          /\ view Res.JuventudToken_store s'
             = <[user := juventud_balance s user
                         + afjp_amount * Storage.juventud_token.exchange_rate info]>
                 (view Res.JuventudToken_store s)
          /\ view Res.token_TokenInfo s'
             = <[afjp_crypto := token_info']> (view Res.token_TokenInfo s)
          /\ Storage.afjp_token.burned_amount token_info'
             = Storage.afjp_token.burned_amount token_info + afjp_amount
          /\ Storage.afjp_token.total_supply token_info'
             = Storage.afjp_token.total_supply token_info
          /\ view Res.juventud_TokenInfo s'
             = <[afjp_crypto := info']> (view Res.juventud_TokenInfo s)
          /\ Storage.juventud_token.total_supply info'
             = Storage.juventud_token.total_supply info
               + afjp_amount * Storage.juventud_token.exchange_rate info
          /\ Storage.juventud_token.total_afjp_burned info'
             = Storage.juventud_token.total_afjp_burned info + afjp_amount
          /\ Storage.juventud_token.total_burned info'
             = Storage.juventud_token.total_burned info
          /\ Storage.juventud_token.exchange_rate info'
             = Storage.juventud_token.exchange_rate info).
Proof.
  split.
  - intros Hsmall.
    unfold juventud_token.burn_afjp_for_juventud, bind at 1,
      juventud_token.assert_, assert_at.
    destruct (Z.leb_spec juventud_token.MIN_BURN_AMOUNT afjp_amount); [lia|done].
  - intros info events token_info token_events Hmin Hbal Hcaps Hinfo Hevents
      Htcaps Htinfo Htevents Hmul Hjbal Hburned Hsupply Hafjp.
    unfold afjp_balance, juventud_balance in *.
    destruct (post_commits
      (juventud_token.burn_afjp_for_juventud afjp_crypto user afjp_amount)
      (fun _ s' =>
         view Res.AFJPToken_store s'
         = <[user := default 0 (view Res.AFJPToken_store s !! user) - afjp_amount]>
             (view Res.AFJPToken_store s)
         /\ view Res.JuventudToken_store s'
            = <[user := default 0 (view Res.JuventudToken_store s !! user)
                        + afjp_amount * Storage.juventud_token.exchange_rate info]>
                (view Res.JuventudToken_store s)
         /\ view Res.token_TokenInfo s'
            = <[afjp_crypto :=
                  {| Storage.afjp_token.total_supply :=
                       Storage.afjp_token.total_supply token_info;
                     Storage.afjp_token.burned_amount :=
                       Storage.afjp_token.burned_amount token_info + afjp_amount;
                     Storage.afjp_token.admin := Storage.afjp_token.admin token_info |}]>
                (view Res.token_TokenInfo s)
         /\ view Res.juventud_TokenInfo s'
            = <[afjp_crypto :=
                  juventud_token.set_total_afjp_burned
                    (Storage.juventud_token.total_afjp_burned info + afjp_amount)
                    (juventud_token.set_total_supply
                       (Storage.juventud_token.total_supply info
                        + afjp_amount * Storage.juventud_token.exchange_rate info)
                       info)]>
                (view Res.juventud_TokenInfo s)) s)
      as ([] & s' & Hrun & Hafjp' & Hjuv' & Htoken' & Hjinfo').
    { unfold juventud_token.burn_afjp_for_juventud, juventud_token.assert_,
        juventud_token.get_admin_address, afjp_token.get_balance,
        afjp_token.burn, afjp_token.assert_, afjp_token.get_admin_address,
        coin.withdraw, coin.deposit.
      msteps; try done; try lia.
      all: cbn in *; unfold juventud_token.MIN_BURN_AMOUNT in *; lia. }
    eexists s', _, _. split; [exact Hrun|].
    split; [exact Hafjp'|]. split; [exact Hjuv'|].
    split; [exact Htoken'|]. split; [reflexivity|]. split; [reflexivity|].
    split; [exact Hjinfo'|]. split_and!; reflexivity.
Qed.

Lemma burn_afjp_for_juventud_converts_witness :
  exists info token_info,
    juventud_token.MIN_BURN_AMOUNT <= 100
    /\ 100 <= afjp_balance (final convertible_run) alice
    /\ view Res.juventud_TokenInfo (final convertible_run) !! the_admin = Some info
    /\ view Res.token_TokenInfo (final convertible_run) !! the_admin = Some token_info
    /\ Storage.juventud_token.exchange_rate info = 10
    /\ exists s' info' token_info',
         juventud_token.burn_afjp_for_juventud the_admin alice 100 (final convertible_run)
         = Ok (tt, s')
         /\ view Res.JuventudToken_store s'
            = <[alice := juventud_balance (final convertible_run) alice
                         + 100 * Storage.juventud_token.exchange_rate info]>
                (view Res.JuventudToken_store (final convertible_run))
         /\ view Res.token_TokenInfo s'
            = <[the_admin := token_info']> (view Res.token_TokenInfo (final convertible_run))
         /\ Storage.afjp_token.burned_amount token_info'
            = Storage.afjp_token.burned_amount token_info + 100
         /\ view Res.juventud_TokenInfo s'
            = <[the_admin := info']> (view Res.juventud_TokenInfo (final convertible_run))
         /\ Storage.juventud_token.total_supply info'
            = Storage.juventud_token.total_supply info
              + 100 * Storage.juventud_token.exchange_rate info.
Proof.
  eexists _, _.
  assert (Hinfo : view Res.juventud_TokenInfo (final convertible_run) !! the_admin
                  = Some _) by (vm_compute; reflexivity).
  assert (Htinfo : view Res.token_TokenInfo (final convertible_run) !! the_admin
                   = Some _) by (vm_compute; reflexivity).
  assert (Hevents : view Res.juventud_TokenEvents (final convertible_run) !! the_admin
                    = Some _) by (vm_compute; reflexivity).
  assert (Htevents : view Res.token_TokenEvents (final convertible_run) !! the_admin
                     = Some _) by (vm_compute; reflexivity).
  assert (Hcaps : view Res.juventud_TokenCapabilities (final convertible_run) !! the_admin
                  = Some tt) by (vm_compute; reflexivity).
  assert (Htcaps : view Res.token_TokenCapabilities (final convertible_run) !! the_admin
                   = Some tt) by (vm_compute; reflexivity).
  assert (Hmin : juventud_token.MIN_BURN_AMOUNT <= 100) by (vm_compute; discriminate).
  assert (Hbal : 100 <= afjp_balance (final convertible_run) alice)
    by (vm_compute; discriminate).
  destruct (proj2 (burn_afjp_for_juventud_converts the_admin alice 100
                     (final convertible_run))
              _ _ _ _ Hmin Hbal Hcaps Hinfo Hevents Htcaps Htinfo Htevents)
    as (s' & info' & token_info' & Hrun & _ & Hjuv & Htok & Hburned & _ & Hji
        & Hsupply & _); try (vm_compute; discriminate).
  split; [exact Hmin|]. split; [exact Hbal|]. split; [exact Hinfo|].
  split; [exact Htinfo|]. split; [reflexivity|].
  exists s', info', token_info'.
  split; [exact Hrun|]. split; [exact Hjuv|]. split; [exact Htok|].
  split; [exact Hburned|]. split; [exact Hji | exact Hsupply].
Defined.

(** ** Vesting *)

(** C5.  The vesting module stores no schedule: [calculate_vested_amount]
    and [get_releasable_amount] are 0 for every beneficiary at every time,
    and [release_vested_tokens] has no [NothingToRelease] failure: whenever
    the pool and its event store exist it commits, moves no coin, leaves
    the pool's figures as they were and appends a [TokensReleasedEvent]
    whose amount and [total_released] are 0. *)
Theorem vesting_releases_nothing (afjp_crypto beneficiary : address) (s : State) :
  afjp_vesting.calculate_vested_amount beneficiary = 0
  /\ afjp_vesting.get_releasable_amount beneficiary = 0
  /\ (forall pool events,
        view Res.VestingPool s !! afjp_crypto = Some pool ->
        view Res.VestingEvents s !! afjp_crypto = Some events ->
        exists s' events',
          afjp_vesting.release_vested_tokens afjp_crypto beneficiary s = Ok (tt, s')
          /\ Storage.coins s' = Storage.coins s
          /\ view Res.VestingPool s' = view Res.VestingPool s
          /\ view Res.VestingEvents s'
             = <[afjp_crypto := events']> (view Res.VestingEvents s)
          /\ Storage.afjp_vesting.tokens_released_events events'
             = Storage.afjp_vesting.tokens_released_events events
               ++ [Storage.afjp_vesting.tokens_released_event beneficiary 0
                     (Storage.clock s) 0]).
Proof.
  split; [reflexivity|]. split; [reflexivity|].
  intros pool events Hpool Hevents.
  destruct (post_commits (afjp_vesting.release_vested_tokens afjp_crypto beneficiary)
    (fun _ s' =>
       Storage.coins s' = Storage.coins s
       /\ view Res.VestingPool s' = view Res.VestingPool s
       /\ exists events',
            view Res.VestingEvents s'
            = <[afjp_crypto := events']> (view Res.VestingEvents s)
            /\ Storage.afjp_vesting.tokens_released_events events'
               = Storage.afjp_vesting.tokens_released_events events
                 ++ [Storage.afjp_vesting.tokens_released_event beneficiary 0
                       (Storage.clock s) 0]) s)
    as ([] & s' & Hrun & Hcoins & Hp & events' & Hev & Hrel).
  { unfold afjp_vesting.release_vested_tokens, afjp_vesting.get_admin_address.
    msteps. split_and!; try reflexivity. eexists. split; reflexivity. }
  exists s', events'. done.
Qed.

Lemma vesting_releases_nothing_witness :
  exists pool events,
    view Res.VestingPool (final (vesting_run afjp_vesting.CLIFF_DURATION_SECONDS))
      !! the_admin = Some pool
    /\ view Res.VestingEvents (final (vesting_run afjp_vesting.CLIFF_DURATION_SECONDS))
         !! the_admin = Some events
    /\ exists s' events',
         afjp_vesting.release_vested_tokens the_admin bob
           (final (vesting_run afjp_vesting.CLIFF_DURATION_SECONDS)) = Ok (tt, s')
         /\ Storage.coins s'
            = Storage.coins (final (vesting_run afjp_vesting.CLIFF_DURATION_SECONDS))
         /\ view Res.VestingPool s'
            = view Res.VestingPool
                (final (vesting_run afjp_vesting.CLIFF_DURATION_SECONDS))
         /\ view Res.VestingEvents s'
            = <[the_admin := events']>
                (view Res.VestingEvents
                   (final (vesting_run afjp_vesting.CLIFF_DURATION_SECONDS)))
         /\ Storage.afjp_vesting.tokens_released_events events'
            = Storage.afjp_vesting.tokens_released_events events
              ++ [Storage.afjp_vesting.tokens_released_event bob 0
                    (Storage.clock
                       (final (vesting_run afjp_vesting.CLIFF_DURATION_SECONDS))) 0].
Proof.
  eexists _, _.
  assert (Hpool : view Res.VestingPool
                    (final (vesting_run afjp_vesting.CLIFF_DURATION_SECONDS))
                    !! the_admin = Some _) by (vm_compute; reflexivity).
  assert (Hevents : view Res.VestingEvents
                      (final (vesting_run afjp_vesting.CLIFF_DURATION_SECONDS))
                      !! the_admin = Some _) by (vm_compute; reflexivity).
  exact (conj Hpool (conj Hevents
           (proj2 (proj2 (vesting_releases_nothing the_admin bob
                            (final (vesting_run afjp_vesting.CLIFF_DURATION_SECONDS))))
              _ _ Hpool Hevents))).
Defined.

(** Scenario C on the code: 5000 vested at time 0.  One second before the
    cliff [release_vested_tokens] commits instead of failing; at the cliff
    the releasable amount is 0 where the specification's curve gives
    1000; at the end a release leaves the beneficiary's balance at 0. *)
Lemma vesting_ignores_the_schedule :
  (exists s',
     afjp_vesting.release_vested_tokens the_admin bob
       (final (vesting_run (afjp_vesting.CLIFF_DURATION_SECONDS - 1))) = Ok (tt, s'))
  /\ vested_amount_spec 5000 0 afjp_vesting.CLIFF_DURATION_SECONDS
       afjp_vesting.VESTING_DURATION_SECONDS afjp_vesting.CLIFF_DURATION_SECONDS = 1000
  /\ afjp_vesting.get_releasable_amount bob
     <> vested_amount_spec 5000 0 afjp_vesting.CLIFF_DURATION_SECONDS
          afjp_vesting.VESTING_DURATION_SECONDS afjp_vesting.CLIFF_DURATION_SECONDS - 0
  /\ (exists s',
        afjp_vesting.release_vested_tokens the_admin bob
          (final (vesting_run afjp_vesting.VESTING_DURATION_SECONDS)) = Ok (tt, s')
        /\ afjp_balance s' bob = 0).
Proof.
  split; [eexists; vm_compute; reflexivity|].
  split; [vm_compute; reflexivity|].
  split; [by vm_compute|].
  eexists. split; vm_compute; reflexivity.
Qed.

(** * Further properties of the four modules *)

(** ** Sums of balances *)

Lemma sum_balances_insert (m : gmap address Z) (k : address) (v : Z) :
  sum_balances (<[k := v]> m) = sum_balances m - default 0 (m !! k) + v.
Proof.
  unfold sum_balances.
  assert (Hcomm : forall z1 z2 y : Z, z1 + (z2 + y) = z2 + (z1 + y)) by (intros; lia).
  destruct (m !! k) as [x|] eqn:Hk; cbn.
  - rewrite <- (insert_delete_eq m k v).
    rewrite map_fold_insert_L; [|intros; apply Hcomm|apply lookup_delete_eq].
    rewrite (map_fold_delete_L _ _ k x m); [lia|intros; apply Hcomm|done].
  - rewrite map_fold_insert_L; [lia|intros; apply Hcomm|done].
Qed.

Lemma sum_balances_empty : sum_balances ∅ = 0.
Proof. apply map_fold_empty. Qed.

(** ** The primary token's supply accounting *)

Lemma token_call_keeps_ledger_consistent afjp_crypto c s :
  ledger_consistent afjp_crypto s ->
  post (run_token_call afjp_crypto c)
    (fun _ s' => ledger_consistent afjp_crypto s') (fun _ => True) s.
Proof.
  intros [Hcaps Hsum]. unfold ledger_consistent.
  destruct c as [admin|admin recipient amount|account amount|from to amount];
    cbn [run_token_call].
  - unfold afjp_token.initialize, afjp_token.assert_, coin.initialize.
    msteps; try done.
    match goal with H : bool_decide _ = true |- _ =>
      apply bool_decide_eq_true in H; subst admin end.
    split.
    + intros a [x Ha]. destruct (decide (a = afjp_crypto)) as [|Hne]; [done|].
      rewrite lookup_insert_ne in Ha by done. eauto.
    + rewrite lookup_insert_eq. cbn -[view sum_balances].
      match goal with H : view Res.token_TokenInfo s !! _ = None |- _ =>
        rewrite H in Hsum end.
      lia.
  - unfold afjp_token.mint, afjp_token.assert_, coin.deposit.
    msteps; try done.
    assert (admin = afjp_crypto) as -> by (apply Hcaps; eauto).
    split.
    + done.
    + rewrite sum_balances_insert, lookup_insert_eq. cbn -[view sum_balances].
      match goal with H : view Res.token_TokenInfo s !! _ = Some _ |- _ =>
        rewrite H in Hsum end.
      lia.
  - unfold afjp_token.burn, afjp_token.assert_, afjp_token.get_admin_address,
      coin.withdraw.
    msteps; try done.
    split.
    + done.
    + rewrite sum_balances_insert, lookup_insert_eq. cbn -[view sum_balances].
      match goal with H : view Res.token_TokenInfo s !! _ = Some _ |- _ =>
        rewrite H in Hsum end.
      lia.
  - unfold afjp_token.transfer, afjp_token.assert_, afjp_token.get_admin_address,
      coin.transfer, coin.withdraw, coin.deposit.
    msteps; try done.
    all: split; [done|].
    all: rewrite !sum_balances_insert.
    all: destruct (view Res.token_TokenInfo s !! afjp_crypto); lia.
Qed.

(** X1.  Whatever calls of [initialize], [mint], [burn] and [transfer] are
    sent, by whomever and with whatever arguments, committed or aborted,
    the sum of all AFJP balances stays equal to
    [total_supply - burned_amount] as stored under the package address (0
    while the token is not initialised). *)
Theorem token_supply_accounting (afjp_crypto : address) (calls : list token_call)
    (s : State) :
  ledger_consistent afjp_crypto s ->
  ledger_consistent afjp_crypto
    (foldl (fun s c => commit_or_revert (run_token_call afjp_crypto c) s) s calls).
Proof.
  revert s. induction calls as [|c calls IH]; intros s Hs; cbn; [done|].
  apply IH. unfold commit_or_revert.
  pose proof (token_call_keeps_ledger_consistent afjp_crypto c s Hs) as Hpost.
  unfold post in Hpost.
  by destruct (run_token_call afjp_crypto c s) as [[[] s']|e].
Qed.

Lemma genesis_ledger_consistent afjp_crypto : ledger_consistent afjp_crypto genesis.
Proof.
  split.
  - intros a [x Ha].
    change (view Res.token_TokenCapabilities genesis) with (∅ : gmap address unit) in Ha.
    by rewrite lookup_empty in Ha.
  - reflexivity.
Qed.

Lemma token_supply_accounting_witness :
  ledger_consistent the_admin genesis
  /\ ledger_consistent the_admin
       (foldl (fun s c => commit_or_revert (run_token_call the_admin c) s) genesis
          [call_token_initialize the_admin; call_mint the_admin alice 1000;
           call_mint alice alice 5; call_transfer alice bob 300; call_burn bob 100;
           call_burn alice 5000]).
Proof.
  exact (conj (genesis_ledger_consistent the_admin)
           (token_supply_accounting the_admin _ genesis
              (genesis_ledger_consistent the_admin))).
Defined.

(** ** A pool that never yields *)

Lemma projected_accumulator_no_yield pool now :
  Storage.afjp_staking.reward_rate_per_second pool = 0 ->
  Storage.afjp_staking.accumulated_reward_per_token pool = 0 ->
  projected_accumulator pool now = 0.
Proof.
  intros Hrate Hacc. unfold projected_accumulator.
  destruct (accrues pool now); rewrite ?Hrate, ?Hacc; lia.
Qed.

Lemma projection_fits_no_yield pool now :
  Storage.afjp_staking.reward_rate_per_second pool = 0 ->
  Storage.afjp_staking.accumulated_reward_per_token pool = 0 ->
  projection_fits pool now.
Proof.
  intros Hrate Hacc _. rewrite Hrate, Hacc. unfold MAX_U64. lia.
Qed.

Lemma reward_fits_no_yield pool info now :
  Storage.afjp_staking.reward_rate_per_second pool = 0 ->
  Storage.afjp_staking.accumulated_reward_per_token pool = 0 ->
  Storage.afjp_staking.user_reward_per_token_paid info = 0 ->
  reward_fits pool info now /\ pending_reward pool info now = 0.
Proof.
  intros Hrate Hacc Hpaid. unfold reward_fits, pending_reward.
  rewrite projected_accumulator_no_yield, Hpaid by done.
  split_and!.
  - by apply projection_fits_no_yield.
  - done.
  - unfold MAX_U64. lia.
  - by rewrite Z.mul_0_r.
Qed.

Lemma calculate_rewards_no_yield afjp_crypto user s :
  no_yield s ->
  afjp_staking.calculate_rewards afjp_crypto user s = Ok (0, s).
Proof.
  intros [Hpools Hinfos].
  destruct (post_commits (afjp_staking.calculate_rewards afjp_crypto user)
              (fun r s' => r = 0 /\ s' = s) s) as (r & s' & Hrun & -> & ->); [|done].
  apply post_calculate_rewards.
  - done.
  - intros pool info Hp Hi _.
    destruct (Hpools _ _ Hp) as [Hrate Hacc]. pose proof (Hinfos _ _ Hi) as Hpaid.
    by destruct (reward_fits_no_yield pool info (Storage.clock s)).
  - intros pool info Hp Hi Hover. apply Hover.
    destruct (Hpools _ _ Hp) as [Hrate Hacc]. pose proof (Hinfos _ _ Hi) as Hpaid.
    by destruct (reward_fits_no_yield pool info (Storage.clock s)).
Qed.

Lemma staking_call_keeps_no_yield afjp_crypto c s :
  staking_call_in_range c ->
  no_yield s ->
  post (run_staking_call afjp_crypto c) (fun _ s' => no_yield s') (fun _ => True) s.
Proof.
  intros Hrange [Hpools Hinfos]. unfold no_yield.
  destruct c as [admin|user amount|user amount|user|admin amount|t];
    cbn [run_staking_call staking_call_in_range] in *.
  - unfold afjp_staking.initialize, afjp_staking.assert_.
    msteps; try done.
    split; [|done]. apply map_Forall_insert_2; [|done]. done.
  - unfold afjp_staking.stake_tokens, afjp_staking.assert_,
      afjp_staking.get_admin_address, afjp_token.get_balance,
      coin.transfer, coin.withdraw, coin.deposit.
    ssteps; try done.
    all: match goal with Hp : view Res.StakingPool ?st !! _ = Some ?p |- _ =>
           destruct (Hpools _ _ Hp) as [Hrate Hacc];
           pose proof (projected_accumulator_no_yield p (Storage.clock st) Hrate Hacc)
             as Hproj
         end.
    all: split; repeat apply map_Forall_insert_2; try done.
    all: cbn -[view projected_accumulator]; try done.
  - unfold afjp_staking.unstake_tokens, afjp_staking.assert_,
      afjp_staking.get_admin_address.
    ssteps; try done.
    all: match goal with Hp : view Res.StakingPool ?st !! _ = Some ?p |- _ =>
           destruct (Hpools _ _ Hp) as [Hrate Hacc];
           pose proof (projected_accumulator_no_yield p (Storage.clock st) Hrate Hacc)
             as Hproj
         end.
    all: split; repeat apply map_Forall_insert_2; try done.
    all: cbn -[view projected_accumulator]; try done.
  - apply post_destruct; [|intros; exact I]. intros [] s' Hrun.
    pose proof (claim_rewards_internal_nothing afjp_crypto user s s
                  (calculate_rewards_no_yield afjp_crypto user s (conj Hpools Hinfos)))
      as Habort.
    unfold afjp_staking.claim_rewards in Hrun. congruence.
  - refine (post_weaken _ _ _ _ _ _ (add_rewards_committed admin amount s) _ (fun _ H => H)).
    intros [] s' (pool & Hp & _ & Hs').
    destruct (Hpools _ _ Hp) as [Hrate Hacc].
    destruct (0 <? Storage.afjp_staking.total_staked pool) eqn:Hstaked.
    + subst s'. norm_state. split; [|done].
      apply map_Forall_insert_2; [|done].
      cbn -[view]. split; [|done]. rewrite Hrate.
      apply Z.min_r.
      apply Z.div_pos; unfold afjp_staking.REWARD_PRECISION,
        afjp_staking.SECONDS_PER_YEAR; lia.
    + by subst s'.
  - unfold timestamp.set_time, modify, post. done.
Qed.

(** X2.  A pool that yields nothing never starts to: when every pool has
    rate 0 and accumulator 0 and every checkpoint sits at 0 (as in
    [genesis], and [initialize] creates its pool with the rate
    [1200 * 10^6 / (10000 * 31536000) = 0]), then after any sequence of
    [initialize], [stake_tokens], [unstake_tokens], [claim_rewards],
    [add_rewards] and clock movements the same holds, [calculate_rewards]
    returns 0 for every holder and [claim_rewards] aborts with
    [E_NO_REWARDS]. *)
Theorem staking_never_yields (afjp_crypto : address) (calls : list staking_call)
    (s : State) :
  no_yield s ->
  Forall staking_call_in_range calls ->
  let s' := foldl (fun s c => commit_or_revert (run_staking_call afjp_crypto c) s)
              s calls in
  no_yield s'
  /\ forall user,
       afjp_staking.calculate_rewards afjp_crypto user s' = Ok (0, s')
       /\ afjp_staking.claim_rewards afjp_crypto user s'
          = Err (Abort at_afjp_staking afjp_staking.E_NO_REWARDS).
Proof.
  intros Hs Hcalls.
  assert (Hend : no_yield
            (foldl (fun s c => commit_or_revert (run_staking_call afjp_crypto c) s)
               s calls)).
  { revert s Hs. induction Hcalls as [|c calls Hc Hcalls IH]; intros s Hs; cbn; [done|].
    apply IH. unfold commit_or_revert.
    pose proof (staking_call_keeps_no_yield afjp_crypto c s Hc Hs) as Hpost.
    unfold post in Hpost.
    by destruct (run_staking_call afjp_crypto c s) as [[[] s']|e]. }
  cbn zeta. split; [exact Hend|]. intros user.
  pose proof (calculate_rewards_no_yield afjp_crypto user _ Hend) as Hcalc.
  split; [exact Hcalc|].
  exact (claim_rewards_internal_nothing _ _ _ _ Hcalc).
Qed.

Lemma funded_run_no_yield : no_yield (final funded_run).
Proof.
  split; apply map_Forall_to_list; vm_compute; repeat constructor.
Qed.

Lemma staking_never_yields_witness :
  no_yield (final funded_run)
  /\ Forall staking_call_in_range
       [call_stake alice 1000; call_tick 1000; call_add_rewards the_admin 1000000000;
        call_tick 31536000; call_claim alice]
  /\ afjp_staking.claim_rewards the_admin alice
       (foldl (fun s c => commit_or_revert (run_staking_call the_admin c) s)
          (final funded_run)
          [call_stake alice 1000; call_tick 1000; call_add_rewards the_admin 1000000000;
           call_tick 31536000; call_claim alice])
     = Err (Abort at_afjp_staking afjp_staking.E_NO_REWARDS).
Proof.
  assert (Hrange : Forall staking_call_in_range
            [call_stake alice 1000; call_tick 1000;
             call_add_rewards the_admin 1000000000;
             call_tick 31536000; call_claim alice]).
  { repeat constructor. cbn. discriminate. }
  refine (conj funded_run_no_yield (conj Hrange _)).
  exact (proj2 (proj2 (staking_never_yields the_admin _ (final funded_run)
                         funded_run_no_yield Hrange) alice)).
Defined.

(** ** The pool's total against the checkpoints *)

Lemma sum_staked_insert (m : gmap address Storage.afjp_staking.StakerInfo)
    (k : address) (v : Storage.afjp_staking.StakerInfo) :
  sum_staked (<[k := v]> m)
  = sum_staked m
    - default 0 (Storage.afjp_staking.staked_amount <$> m !! k)
    + Storage.afjp_staking.staked_amount v.
Proof.
  unfold sum_staked.
  assert (Hcomm : forall z1 z2 y : Z, z1 + (z2 + y) = z2 + (z1 + y)) by (intros; lia).
  destruct (m !! k) as [x|] eqn:Hk; cbn.
  - rewrite <- (insert_delete_eq m k v).
    rewrite map_fold_insert_L; [|intros; apply Hcomm|apply lookup_delete_eq].
    rewrite (map_fold_delete_L _ _ k x m); [lia|intros; apply Hcomm|done].
  - rewrite map_fold_insert_L; [lia|intros; apply Hcomm|done].
Qed.

Lemma staking_call_keeps_stakes_consistent afjp_crypto c s :
  stakes_consistent afjp_crypto s ->
  post (run_staking_call afjp_crypto c)
    (fun _ s' => stakes_consistent afjp_crypto s') (fun _ => True) s.
Proof.
  intros Hs. unfold stakes_consistent in *.
  destruct c as [admin|user amount|user amount|user|admin amount|t];
    cbn [run_staking_call].
  - unfold afjp_staking.initialize, afjp_staking.assert_.
    msteps; try done.
    destruct (decide (admin = afjp_crypto)) as [->|Hne].
    + rewrite lookup_insert_eq.
      match goal with H : view Res.StakingPool s !! _ = None |- _ => rewrite H in Hs end.
      rewrite Hs. reflexivity.
    + by rewrite lookup_insert_ne.
  - refine (post_weaken _ _ _ _ _ _ (stake_tokens_committed afjp_crypto user amount s)
              _ (fun _ H => H)).
    intros [] s' (pool & pool' & info' & Hp & _ & _ & _ & Hpool' & _ & _ & Htotal
                  & Hinfo' & _ & Hold & _).
    rewrite Hp in Hs. rewrite Hpool', Hinfo', lookup_insert_eq, sum_staked_insert.
    destruct (view Res.StakerInfo s !! user); cbn -[view sum_staked];
      destruct Hold; lia.
  - refine (post_weaken _ _ _ _ _ _ (unstake_tokens_committed afjp_crypto user amount s)
              _ (fun _ H => H)).
    intros [] s' (pool & pool' & info & info' & Hp & Hi & _ & Hpool' & _ & _ & Htotal
                  & Hinfo' & _ & Hstaked & _).
    rewrite Hp in Hs. rewrite Hpool', Hinfo', lookup_insert_eq, sum_staked_insert, Hi.
    cbn -[view sum_staked]. lia.
  - refine (post_weaken _ _ _ _ _ _ (claim_rewards_internal_committed afjp_crypto user s)
              _ (fun _ H => H)).
    intros [] s' (pool & info & events & Hp & Hi & _ & _ & _ & Hinfo' & Hpool' & _).
    rewrite Hp in Hs. rewrite Hpool', Hinfo', lookup_insert_eq, sum_staked_insert, Hi.
    cbn -[view sum_staked]. lia.
  - refine (post_weaken _ _ _ _ _ _ (add_rewards_committed admin amount s) _ (fun _ H => H)).
    intros [] s' (pool & Hp & _ & Hs').
    destruct (0 <? Storage.afjp_staking.total_staked pool); subst s'; [|done].
    norm_state.
    destruct (decide (admin = afjp_crypto)) as [->|Hne].
    + rewrite lookup_insert_eq. by rewrite Hp in Hs.
    + by rewrite lookup_insert_ne.
  - unfold timestamp.set_time, modify, post. done.
Qed.

(** X3.  The pool's [total_staked] equals the sum of the stakers'
    [staked_amount] after any sequence of [initialize], [stake_tokens],
    [unstake_tokens], [claim_rewards], [add_rewards] and clock movements,
    committed or aborted, once it does (as in [genesis], where there is
    neither a pool nor a checkpoint). *)
Theorem total_staked_is_the_sum_of_stakes (afjp_crypto : address)
    (calls : list staking_call) (s : State) :
  stakes_consistent afjp_crypto s ->
  stakes_consistent afjp_crypto
    (foldl (fun s c => commit_or_revert (run_staking_call afjp_crypto c) s) s calls).
Proof.
  revert s. induction calls as [|c calls IH]; intros s Hs; cbn; [done|].
  apply IH. unfold commit_or_revert.
  pose proof (staking_call_keeps_stakes_consistent afjp_crypto c s Hs) as Hpost.
  unfold post in Hpost.
  by destruct (run_staking_call afjp_crypto c s) as [[[] s']|e].
Qed.

Lemma funded_run_stakes_consistent : stakes_consistent the_admin (final funded_run).
Proof. vm_compute. reflexivity. Qed.

Lemma total_staked_is_the_sum_of_stakes_witness :
  stakes_consistent the_admin (final funded_run)
  /\ stakes_consistent the_admin
       (foldl (fun s c => commit_or_revert (run_staking_call the_admin c) s)
          (final funded_run)
          [call_stake alice 1000; call_tick 50; call_stake alice 500;
           call_unstake alice 700; call_unstake bob 1; call_add_rewards the_admin 7]).
Proof.
  exact (conj funded_run_stakes_consistent
           (total_staked_is_the_sum_of_stakes the_admin _ (final funded_run)
              funded_run_stakes_consistent)).
Defined.

(** ** Updating and counting stakers *)

Lemma updated_pool_twice pool now :
  updated_pool (updated_pool pool now) now = updated_pool pool now.
Proof.
  unfold updated_pool at 1. rewrite projected_updated. reflexivity.
Qed.

(** X5.  The update step is idempotent within one clock reading and never
    lowers the accumulator of a pool whose rate is not negative: a second
    [update_pool_rewards] right after a committed one commits and returns
    the very same storage, and the accumulator after the first is at least
    what it was. *)
Theorem update_pool_rewards_settles (afjp_crypto : address) (s s1 : State) :
  afjp_staking.update_pool_rewards afjp_crypto s = Ok (tt, s1) ->
  afjp_staking.update_pool_rewards afjp_crypto s1 = Ok (tt, s1)
  /\ forall pool pool1,
       view Res.StakingPool s !! afjp_crypto = Some pool ->
       view Res.StakingPool s1 !! afjp_crypto = Some pool1 ->
       0 <= Storage.afjp_staking.reward_rate_per_second pool ->
       Storage.afjp_staking.accumulated_reward_per_token pool
       <= Storage.afjp_staking.accumulated_reward_per_token pool1
       /\ Storage.afjp_staking.last_update_time pool1 = Storage.clock s.
Proof.
  intros Hrun.
  assert (Hs1 : match view Res.StakingPool s !! afjp_crypto with
                | Some pool =>
                    s1 = update Res.StakingPool
                           (<[afjp_crypto := updated_pool pool (Storage.clock s)]>
                              (view Res.StakingPool s)) s
                | None => s1 = s
                end).
  { refine (post_committed _ (fun _ s1 => _) _ _ _ _ Hrun).
    apply post_update_pool_rewards; [| |done].
    - intros Hnone. by rewrite Hnone.
    - intros pool Hp _. by rewrite Hp. }
  destruct (view Res.StakingPool s !! afjp_crypto) as [pool|] eqn:Hp; subst s1.
  - split.
    + destruct (post_commits (afjp_staking.update_pool_rewards afjp_crypto)
        (fun _ s2 =>
           s2 = update Res.StakingPool
                  (<[afjp_crypto := updated_pool pool (Storage.clock s)]>
                     (view Res.StakingPool s)) s)
        (update Res.StakingPool
           (<[afjp_crypto := updated_pool pool (Storage.clock s)]>
              (view Res.StakingPool s)) s)) as ([] & s2 & Hrun2 & ->); [|done].
      apply post_update_pool_rewards; norm_state.
      * by rewrite lookup_insert_eq.
      * intros pool1. rewrite lookup_insert_eq. intros [= <-] _.
        rewrite updated_pool_twice, insert_insert_eq. reflexivity.
      * intros pool1. rewrite lookup_insert_eq. intros [= <-] Hover. apply Hover.
        unfold projection_fits. by rewrite accrues_updated.
    + intros pool0 pool1 [= <-]. norm_state. rewrite lookup_insert_eq.
      intros [= <-] Hrate. split; [|reflexivity].
      cbn -[projected_accumulator]. unfold projected_accumulator, accrues.
      destruct (0 <? Storage.afjp_staking.total_staked pool); cbn [andb]; [|lia].
      destruct (Z.ltb_spec (Storage.afjp_staking.last_update_time pool) (Storage.clock s));
        nia.
  - split; [|by intros ? ? [=]].
    destruct (post_commits (afjp_staking.update_pool_rewards afjp_crypto)
                (fun _ s2 => s2 = s) s) as ([] & s2 & Hrun2 & ->); [|done].
    apply post_update_pool_rewards; [done| |]; intros ? ?; congruence.
Qed.

Lemma update_pool_rewards_settles_witness :
  exists s1,
    afjp_staking.update_pool_rewards the_admin (final staked_run) = Ok (tt, s1)
    /\ afjp_staking.update_pool_rewards the_admin s1 = Ok (tt, s1).
Proof.
  eexists.
  assert (Hrun : afjp_staking.update_pool_rewards the_admin (final staked_run)
                 = Ok (tt, _)) by (vm_compute; reflexivity).
  exact (conj Hrun (proj1 (update_pool_rewards_settles the_admin _ _ Hrun))).
Defined.

(** X6.  [total_stakers] counts checkpoints created, not holders with a
    stake: a committed [stake_tokens] on an existing checkpoint leaves it
    as it is, also when that checkpoint holds 0; and when the count is 0,
    taking out the whole of a stake aborts on the decrement with an
    arithmetic error.  So a holder who staked, took everything out and
    staked again cannot take the second stake out in full. *)
Theorem restake_is_not_counted (afjp_crypto user : address) (amount : Z) (s : State)
    (pool : Storage.afjp_staking.StakingPool) (info : Storage.afjp_staking.StakerInfo) :
  view Res.StakingPool s !! afjp_crypto = Some pool ->
  view Res.StakerInfo s !! user = Some info ->
  (forall s1,
     afjp_staking.stake_tokens afjp_crypto user amount s = Ok (tt, s1) ->
     exists pool1,
       view Res.StakingPool s1 !! afjp_crypto = Some pool1
       /\ Storage.afjp_staking.total_stakers pool1
          = Storage.afjp_staking.total_stakers pool)
  /\ (0 < amount ->
      Storage.afjp_staking.staked_amount info = amount ->
      Storage.afjp_staking.total_stakers pool = 0 ->
      projection_fits pool (Storage.clock s) ->
      afjp_staking.unstake_tokens afjp_crypto user amount s = Err ARITHMETIC_ERROR).
Proof.
  intros Hp Hi. split.
  - intros s1 Hrun.
    refine (post_committed _ (fun _ s1 => _) _ _ _ _ Hrun).
    unfold afjp_staking.stake_tokens, afjp_staking.assert_,
      afjp_staking.get_admin_address, afjp_token.get_balance,
      coin.transfer, coin.withdraw, coin.deposit.
    ssteps; try done.
    eexists. rewrite lookup_insert_eq. split; reflexivity.
  - intros Hpos Hfull Hzero Hfit.
    assert (Hpost : post (afjp_staking.unstake_tokens afjp_crypto user amount)
              (fun _ _ => False) (fun e => e = ARITHMETIC_ERROR) s).
    { unfold afjp_staking.unstake_tokens, afjp_staking.assert_,
        afjp_staking.get_admin_address.
      ssteps; try done; try lia.
      all: cbn -[view] in *; lia. }
    unfold post in Hpost.
    destruct (afjp_staking.unstake_tokens afjp_crypto user amount s) as [[[] ?]|e];
      [done | by subst].
Qed.

Lemma restake_is_not_counted_witness :
  exists pool info,
    view Res.StakingPool (final restaked_run) !! the_admin = Some pool
    /\ view Res.StakerInfo (final restaked_run) !! alice = Some info
    /\ 0 < 1000
    /\ Storage.afjp_staking.staked_amount info = 1000
    /\ Storage.afjp_staking.total_stakers pool = 0
    /\ projection_fits pool (Storage.clock (final restaked_run))
    /\ afjp_staking.unstake_tokens the_admin alice 1000 (final restaked_run)
       = Err ARITHMETIC_ERROR.
Proof.
  eexists _, _.
  assert (Hp : view Res.StakingPool (final restaked_run) !! the_admin = Some _)
    by (vm_compute; reflexivity).
  assert (Hi : view Res.StakerInfo (final restaked_run) !! alice = Some _)
    by (vm_compute; reflexivity).
  refine ((fun H1 H2 H3 H4 =>
             conj Hp (conj Hi (conj H1 (conj H2 (conj H3 (conj H4
               (proj2 (restake_is_not_counted the_admin alice 1000 (final restaked_run)
                         _ _ Hp Hi) H1 H2 H3 H4))))))) _ _ _ _).
  - vm_compute; reflexivity.
  - vm_compute; reflexivity.
  - vm_compute; reflexivity.
  - intros _. vm_compute. split; discriminate.
Defined.

(** X7.  The guards of [stake_tokens] and [unstake_tokens], in the order
    the code checks them: a stake below [MIN_STAKE_AMOUNT] is
    [E_INVALID_AMOUNT]; one the balance does not cover is
    [E_INSUFFICIENT_BALANCE], before the pool is even looked up; without a
    pool under the package address it is [E_NOT_INITIALIZED].  An unstake
    of 0 is [E_INVALID_AMOUNT]; without a checkpoint, or for more than the
    checkpoint holds, it is [E_INSUFFICIENT_STAKED]. *)
Theorem staking_guards (afjp_crypto user : address) (amount : Z) (s : State) :
  (amount < afjp_staking.MIN_STAKE_AMOUNT ->
   afjp_staking.stake_tokens afjp_crypto user amount s
   = Err (Abort at_afjp_staking afjp_staking.E_INVALID_AMOUNT))
  /\ (afjp_staking.MIN_STAKE_AMOUNT <= amount ->
      afjp_balance s user < amount ->
      afjp_staking.stake_tokens afjp_crypto user amount s
      = Err (Abort at_afjp_staking afjp_staking.E_INSUFFICIENT_BALANCE))
  /\ (afjp_staking.MIN_STAKE_AMOUNT <= amount ->
      amount <= afjp_balance s user ->
      view Res.StakingPool s !! afjp_crypto = None ->
      afjp_staking.stake_tokens afjp_crypto user amount s
      = Err (Abort at_afjp_staking afjp_staking.E_NOT_INITIALIZED))
  /\ (amount <= 0 ->
      afjp_staking.unstake_tokens afjp_crypto user amount s
      = Err (Abort at_afjp_staking afjp_staking.E_INVALID_AMOUNT))
  /\ (0 < amount ->
      view Res.StakerInfo s !! user = None ->
      afjp_staking.unstake_tokens afjp_crypto user amount s
      = Err (Abort at_afjp_staking afjp_staking.E_INSUFFICIENT_STAKED))
  /\ (forall info,
        0 < amount ->
        view Res.StakerInfo s !! user = Some info ->
        Storage.afjp_staking.staked_amount info < amount ->
        afjp_staking.unstake_tokens afjp_crypto user amount s
        = Err (Abort at_afjp_staking afjp_staking.E_INSUFFICIENT_STAKED)).
Proof.
  assert (Haborts : forall (m : M unit) e,
            post m (fun _ _ => False) (fun e' => e' = e) s -> m s = Err e).
  { intros m e Hpost. unfold post in Hpost.
    destruct (m s) as [[[] ?]|e']; [done | by subst]. }
  unfold afjp_balance.
  split_and!; intros; apply Haborts;
    unfold afjp_staking.stake_tokens, afjp_staking.unstake_tokens,
      afjp_staking.assert_, afjp_staking.get_admin_address, afjp_token.get_balance.
  - mstep. mstep; [lia|done].
  - mstep. mstep; [|lia]. mstep. mstep. mstep. mstep; [lia|done].
  - mstep. mstep; [|lia]. mstep. mstep. mstep. mstep; [|lia].
    mstep. mstep. mstep. mstep; done.
  - mstep. mstep; [lia|done].
  - mstep. mstep; [|lia]. mstep. mstep. mstep. mstep; done.
  - mstep. mstep; [|lia]. mstep. mstep. mstep. mstep; [|done].
    mstep. mstep. mstep. mstep; [lia|done].
Qed.

Lemma staking_guards_witness :
  afjp_staking.MIN_STAKE_AMOUNT <= 20000
  /\ afjp_balance (final funded_run) alice < 20000
  /\ afjp_staking.stake_tokens the_admin alice 20000 (final funded_run)
     = Err (Abort at_afjp_staking afjp_staking.E_INSUFFICIENT_BALANCE).
Proof.
  refine ((fun H1 H2 =>
             conj H1 (conj H2
               (proj1 (proj2 (staking_guards the_admin alice 20000 (final funded_run)))
                  H1 H2))) _ _).
  - vm_compute; discriminate.
  - vm_compute; reflexivity.
Defined.

(** ** Initialisation *)

(** X8.  Each module initialises at most once per account: after a
    committed [initialize] of the token, of the derived token, of the
    staking pool or of the vesting pool, the same call by the same account
    aborts with that module's [E_ALREADY_INITIALIZED]. *)
Theorem initialize_only_once (afjp_crypto admin : address) (s s' : State) :
  (afjp_token.initialize afjp_crypto admin s = Ok (tt, s') ->
   afjp_token.initialize afjp_crypto admin s'
   = Err (Abort at_afjp_token afjp_token.E_ALREADY_INITIALIZED))
  /\ (juventud_token.initialize afjp_crypto admin s = Ok (tt, s') ->
      juventud_token.initialize afjp_crypto admin s'
      = Err (Abort at_juventud_token juventud_token.E_ALREADY_INITIALIZED))
  /\ (afjp_staking.initialize admin s = Ok (tt, s') ->
      afjp_staking.initialize admin s'
      = Err (Abort at_afjp_staking afjp_staking.E_ALREADY_INITIALIZED))
  /\ (afjp_vesting.initialize admin s = Ok (tt, s') ->
      afjp_vesting.initialize admin s'
      = Err (Abort at_afjp_vesting afjp_vesting.E_ALREADY_INITIALIZED)).
Proof.
  assert (Hagain : forall {R} (r : resource R) loc code (k : M unit),
            is_Some (view r s' !! admin) ->
            (let* published := exists_ r admin in
             assert_at loc (negb published) code ;; k) s'
            = Err (Abort loc code)).
  { intros R r loc code k Hsome. unfold bind, exists_.
    by rewrite bool_decide_eq_true_2. }
  split_and!; intros Hrun; apply Hagain.
  - refine (post_committed _ (fun _ s' => _) _ _ _ _ Hrun).
    unfold afjp_token.initialize, afjp_token.assert_, coin.initialize.
    msteps; try done. rewrite lookup_insert_eq. eauto.
  - refine (post_committed _ (fun _ s' => _) _ _ _ _ Hrun).
    unfold juventud_token.initialize, juventud_token.assert_, coin.initialize.
    msteps; try done. rewrite lookup_insert_eq. eauto.
  - refine (post_committed _ (fun _ s' => _) _ _ _ _ Hrun).
    unfold afjp_staking.initialize, afjp_staking.assert_.
    msteps; try done. rewrite lookup_insert_eq. eauto.
  - refine (post_committed _ (fun _ s' => _) _ _ _ _ Hrun).
    unfold afjp_vesting.initialize, afjp_vesting.assert_.
    msteps; try done. rewrite lookup_insert_eq. eauto.
Qed.

Lemma initialize_only_once_witness :
  exists s',
    afjp_staking.initialize the_admin genesis = Ok (tt, s')
    /\ afjp_staking.initialize the_admin s'
       = Err (Abort at_afjp_staking afjp_staking.E_ALREADY_INITIALIZED).
Proof.
  eexists.
  assert (Hrun : afjp_staking.initialize the_admin genesis = Ok (tt, _))
    by (vm_compute; reflexivity).
  exact (conj Hrun
           (proj1 (proj2 (proj2 (initialize_only_once the_admin the_admin genesis _)))
              Hrun)).
Defined.

(** X9.  The staking and vesting pools are found under the package
    address only, but anybody may initialise one under their own: for an
    account other than the package's, [afjp_staking::initialize] commits
    whenever that account has no pool yet, and the module is as
    uninitialised as before: [is_initialized] returns what it returned and
    the pool under the package address is untouched. *)
Theorem staking_initialize_elsewhere (afjp_crypto admin : address) (s : State) :
  admin <> afjp_crypto ->
  view Res.StakingPool s !! admin = None ->
  view Res.StakingEvents s !! admin = None ->
  exists s',
    afjp_staking.initialize admin s = Ok (tt, s')
    /\ is_Some (view Res.StakingPool s' !! admin)
    /\ view Res.StakingPool s' !! afjp_crypto = view Res.StakingPool s !! afjp_crypto
    /\ exists b,
         afjp_staking.is_initialized afjp_crypto s = Ok (b, s)
         /\ afjp_staking.is_initialized afjp_crypto s' = Ok (b, s').
Proof.
  intros Hne Hpool Hevents.
  destruct (post_commits (afjp_staking.initialize admin)
    (fun _ s' =>
       is_Some (view Res.StakingPool s' !! admin)
       /\ view Res.StakingPool s' !! afjp_crypto = view Res.StakingPool s !! afjp_crypto) s)
    as ([] & s' & Hrun & Hsome & Hsame).
  { unfold afjp_staking.initialize, afjp_staking.assert_.
    msteps; try done.
    all: try (rewrite lookup_insert_eq, lookup_insert_ne by done; eauto; fail).
    all: exfalso; match goal with
         | H : MAX_U64 < _ |- _ => vm_compute in H; discriminate H
         | H : _ = 0 |- _ => vm_compute in H; discriminate H
         end. }
  exists s'. split_and!; try done.
  eexists. unfold afjp_staking.is_initialized, exists_, afjp_staking.get_admin_address.
  rewrite Hsame. split; reflexivity.
Qed.

Lemma staking_initialize_elsewhere_witness :
  alice <> the_admin
  /\ view Res.StakingPool genesis !! alice = None
  /\ view Res.StakingEvents genesis !! alice = None
  /\ exists s',
       afjp_staking.initialize alice genesis = Ok (tt, s')
       /\ is_Some (view Res.StakingPool s' !! alice)
       /\ view Res.StakingPool s' !! the_admin = view Res.StakingPool genesis !! the_admin
       /\ exists b,
            afjp_staking.is_initialized the_admin genesis = Ok (b, genesis)
            /\ afjp_staking.is_initialized the_admin s' = Ok (b, s').
Proof.
  refine ((fun H1 H2 H3 =>
             conj H1 (conj H2 (conj H3
               (staking_initialize_elsewhere the_admin alice genesis H1 H2 H3))))
            _ _ _).
  - vm_compute; discriminate.
  - vm_compute; reflexivity.
  - vm_compute; reflexivity.
Defined.

(** ** Minting and burning the primary token *)

(** X10.  [mint] by the account that holds the token's resources: with a
    positive amount, and the recipient's balance and [total_supply] having
    room for it, it commits, credits exactly [amount] to the recipient,
    raises [total_supply] by [amount], leaves [burned_amount] alone and
    appends a [MintEvent]; with an amount of 0 it aborts with
    [E_INVALID_AMOUNT]. *)
Theorem mint_credits_the_recipient (admin recipient : address) (amount : Z) (s : State)
    (token_info : Storage.afjp_token.TokenInfo)
    (events : Storage.afjp_token.TokenEvents) :
  view Res.token_TokenCapabilities s !! admin = Some tt ->
  view Res.token_TokenInfo s !! admin = Some token_info ->
  view Res.token_TokenEvents s !! admin = Some events ->
  Storage.afjp_token.admin token_info = admin ->
  (amount <= 0 ->
   afjp_token.mint admin recipient amount s
   = Err (Abort at_afjp_token afjp_token.E_INVALID_AMOUNT))
  /\ (0 < amount ->
      afjp_balance s recipient + amount <= MAX_U64 ->
      Storage.afjp_token.total_supply token_info + amount <= MAX_U64 ->
      exists s' token_info' events',
        afjp_token.mint admin recipient amount s = Ok (tt, s')
        /\ view Res.AFJPToken_store s'
           = <[recipient := afjp_balance s recipient + amount]>
               (view Res.AFJPToken_store s)
        /\ view Res.token_TokenInfo s' = <[admin := token_info']> (view Res.token_TokenInfo s)
        /\ Storage.afjp_token.total_supply token_info'
           = Storage.afjp_token.total_supply token_info + amount
        /\ Storage.afjp_token.burned_amount token_info'
           = Storage.afjp_token.burned_amount token_info
        /\ view Res.token_TokenEvents s'
           = <[admin := events']> (view Res.token_TokenEvents s)
        /\ Storage.afjp_token.mint_events events'
           = Storage.afjp_token.mint_events events
             ++ [Storage.afjp_token.mint_event amount recipient (Storage.clock s)]).
Proof.
  intros Hcaps Hinfo Hevents Hadmin. unfold afjp_balance. split.
  - intros Hzero.
    assert (Hpost : post (afjp_token.mint admin recipient amount)
              (fun _ _ => False)
              (fun e => e = Abort at_afjp_token afjp_token.E_INVALID_AMOUNT) s).
    { unfold afjp_token.mint, afjp_token.assert_, coin.deposit.
      msteps; try done; lia. }
    unfold post in Hpost.
    destruct (afjp_token.mint admin recipient amount s) as [[[] ?]|e];
      [done | by subst].
  - intros Hpos Hbal Hsupply.
    destruct (post_commits (afjp_token.mint admin recipient amount)
      (fun _ s' =>
         exists token_info' events',
           view Res.AFJPToken_store s'
           = <[recipient := default 0 (view Res.AFJPToken_store s !! recipient) + amount]>
               (view Res.AFJPToken_store s)
           /\ view Res.token_TokenInfo s'
              = <[admin := token_info']> (view Res.token_TokenInfo s)
           /\ Storage.afjp_token.total_supply token_info'
              = Storage.afjp_token.total_supply token_info + amount
           /\ Storage.afjp_token.burned_amount token_info'
              = Storage.afjp_token.burned_amount token_info
           /\ view Res.token_TokenEvents s'
              = <[admin := events']> (view Res.token_TokenEvents s)
           /\ Storage.afjp_token.mint_events events'
              = Storage.afjp_token.mint_events events
                ++ [Storage.afjp_token.mint_event amount recipient (Storage.clock s)]) s)
      as ([] & s' & Hrun & token_info' & events' & HQ).
    { unfold afjp_token.mint, afjp_token.assert_, coin.deposit.
      msteps; try done; try lia.
      - eexists _, _. split_and!; reflexivity.
      - match goal with H : bool_decide _ = false |- _ =>
          apply bool_decide_eq_false in H end. done. }
    exists s', token_info', events'. by split.
Qed.

Lemma mint_credits_the_recipient_witness :
  exists token_info events,
    view Res.token_TokenCapabilities (final deploy) !! the_admin = Some tt
    /\ view Res.token_TokenInfo (final deploy) !! the_admin = Some token_info
    /\ view Res.token_TokenEvents (final deploy) !! the_admin = Some events
    /\ Storage.afjp_token.admin token_info = the_admin
    /\ 0 < 1000
    /\ afjp_balance (final deploy) alice + 1000 <= MAX_U64
    /\ Storage.afjp_token.total_supply token_info + 1000 <= MAX_U64
    /\ exists s' token_info' events',
         afjp_token.mint the_admin alice 1000 (final deploy) = Ok (tt, s')
         /\ view Res.AFJPToken_store s'
            = <[alice := afjp_balance (final deploy) alice + 1000]>
                (view Res.AFJPToken_store (final deploy))
         /\ view Res.token_TokenInfo s'
            = <[the_admin := token_info']> (view Res.token_TokenInfo (final deploy))
         /\ Storage.afjp_token.total_supply token_info'
            = Storage.afjp_token.total_supply token_info + 1000
         /\ Storage.afjp_token.burned_amount token_info'
            = Storage.afjp_token.burned_amount token_info
         /\ view Res.token_TokenEvents s'
            = <[the_admin := events']> (view Res.token_TokenEvents (final deploy))
         /\ Storage.afjp_token.mint_events events'
            = Storage.afjp_token.mint_events events
              ++ [Storage.afjp_token.mint_event 1000 alice (Storage.clock (final deploy))].
Proof.
  eexists _, _.
  assert (Hcaps : view Res.token_TokenCapabilities (final deploy) !! the_admin = Some tt)
    by (vm_compute; reflexivity).
  assert (Hinfo : view Res.token_TokenInfo (final deploy) !! the_admin = Some _)
    by (vm_compute; reflexivity).
  assert (Hevents : view Res.token_TokenEvents (final deploy) !! the_admin = Some _)
    by (vm_compute; reflexivity).
  refine ((fun Hadmin H1 H2 H3 =>
             conj Hcaps (conj Hinfo (conj Hevents (conj Hadmin (conj H1 (conj H2 (conj H3
               (proj2 (mint_credits_the_recipient the_admin alice 1000 (final deploy)
                         _ _ Hcaps Hinfo Hevents Hadmin) H1 H2 H3))))))))
            _ _ _ _).
  - vm_compute; reflexivity.
  - vm_compute; reflexivity.
  - vm_compute; discriminate.
  - vm_compute; discriminate.
Defined.

(** X11.  [burn]: on an uninitialised token it aborts with
    [E_NOT_INITIALIZED], with an amount of 0 with [E_INVALID_AMOUNT], with
    a balance that does not cover the amount with
    [E_INSUFFICIENT_BALANCE]; and when it commits, the holder's balance is
    down by exactly [amount], [burned_amount] is up by [amount] and
    [total_supply] is as it was, so the circulating supply
    [total_supply - burned_amount] is down by [amount]. *)
Theorem burn_debits_the_holder (afjp_crypto account : address) (amount : Z) (s : State) :
  (view Res.token_TokenCapabilities s !! afjp_crypto = None ->
   afjp_token.burn afjp_crypto account amount s
   = Err (Abort at_afjp_token afjp_token.E_NOT_INITIALIZED))
  /\ (forall token_info events,
        view Res.token_TokenCapabilities s !! afjp_crypto = Some tt ->
        view Res.token_TokenInfo s !! afjp_crypto = Some token_info ->
        view Res.token_TokenEvents s !! afjp_crypto = Some events ->
        (amount <= 0 ->
         afjp_token.burn afjp_crypto account amount s
         = Err (Abort at_afjp_token afjp_token.E_INVALID_AMOUNT))
        /\ (0 < amount -> afjp_balance s account < amount ->
            afjp_token.burn afjp_crypto account amount s
            = Err (Abort at_afjp_token afjp_token.E_INSUFFICIENT_BALANCE)))
  /\ (forall s',
        afjp_token.burn afjp_crypto account amount s = Ok (tt, s') ->
        exists token_info token_info',
          view Res.token_TokenInfo s !! afjp_crypto = Some token_info
          /\ view Res.token_TokenInfo s' !! afjp_crypto = Some token_info'
          /\ 0 < amount <= afjp_balance s account
          /\ view Res.AFJPToken_store s'
             = <[account := afjp_balance s account - amount]> (view Res.AFJPToken_store s)
          /\ Storage.afjp_token.burned_amount token_info'
             = Storage.afjp_token.burned_amount token_info + amount
          /\ Storage.afjp_token.total_supply token_info'
             = Storage.afjp_token.total_supply token_info).
Proof.
  assert (Haborts : forall (m : M unit) e,
            post m (fun _ _ => False) (fun e' => e' = e) s -> m s = Err e).
  { intros m e Hpost. unfold post in Hpost.
    destruct (m s) as [[[] ?]|e']; [done | by subst]. }
  unfold afjp_balance. split_and!.
  - intros Hnone. apply Haborts.
    unfold afjp_token.burn, afjp_token.assert_, afjp_token.get_admin_address,
      coin.withdraw.
    msteps; done.
  - intros token_info events Hcaps Hinfo Hevents. split; intros; apply Haborts.
    + unfold afjp_token.burn, afjp_token.assert_, afjp_token.get_admin_address,
        coin.withdraw.
      msteps; try done; lia.
    + unfold afjp_token.burn, afjp_token.assert_, afjp_token.get_admin_address,
        coin.withdraw.
      msteps; try done; lia.
  - intros s' Hrun.
    refine (post_committed _ (fun _ s' => _) _ _ _ _ Hrun).
    unfold afjp_token.burn, afjp_token.assert_, afjp_token.get_admin_address,
      coin.withdraw.
    msteps; try done.
    eexists _, _. rewrite lookup_insert_eq. split_and!; try done; try reflexivity; lia.
Qed.

Lemma burn_debits_the_holder_witness :
  exists s' token_info token_info',
    afjp_token.burn the_admin alice 300 (final funded_run) = Ok (tt, s')
    /\ view Res.token_TokenInfo (final funded_run) !! the_admin = Some token_info
    /\ view Res.token_TokenInfo s' !! the_admin = Some token_info'
    /\ 0 < 300 <= afjp_balance (final funded_run) alice
    /\ view Res.AFJPToken_store s'
       = <[alice := afjp_balance (final funded_run) alice - 300]>
           (view Res.AFJPToken_store (final funded_run))
    /\ Storage.afjp_token.burned_amount token_info'
       = Storage.afjp_token.burned_amount token_info + 300
    /\ Storage.afjp_token.total_supply token_info'
       = Storage.afjp_token.total_supply token_info.
Proof.
  eexists.
  assert (Hrun : afjp_token.burn the_admin alice 300 (final funded_run) = Ok (tt, _))
    by (vm_compute; reflexivity).
  destruct (proj2 (proj2 (burn_debits_the_holder the_admin alice 300 (final funded_run)))
              _ Hrun) as (token_info & token_info' & HQ).
  exists token_info, token_info'. exact (conj Hrun HQ).
Defined.

(** ** The exchange rate and the rental discount *)

(** X12.  The quote and the conversion agree: whenever
    [burn_afjp_for_juventud] commits, [calculate_juventud_for_afjp] on the
    storage before it returns exactly the amount of JUVENTUD the holder was
    credited, which is also what [total_supply] grew by, and
    [exchange_rate] is the same afterwards. *)
Theorem quote_matches_conversion (afjp_crypto user : address) (afjp_amount : Z)
    (s s' : State) :
  juventud_token.burn_afjp_for_juventud afjp_crypto user afjp_amount s = Ok (tt, s') ->
  exists quote info info',
    juventud_token.calculate_juventud_for_afjp afjp_crypto afjp_amount s = Ok (quote, s)
    /\ juventud_balance s' user = juventud_balance s user + quote
    /\ view Res.juventud_TokenInfo s !! afjp_crypto = Some info
    /\ view Res.juventud_TokenInfo s' !! afjp_crypto = Some info'
    /\ quote = afjp_amount * Storage.juventud_token.exchange_rate info
    /\ Storage.juventud_token.total_supply info'
       = Storage.juventud_token.total_supply info + quote
    /\ Storage.juventud_token.exchange_rate info'
       = Storage.juventud_token.exchange_rate info.
Proof.
  intros Hrun.
  assert (Hfacts : exists info info',
            view Res.juventud_TokenInfo s !! afjp_crypto = Some info
            /\ view Res.juventud_TokenInfo s' !! afjp_crypto = Some info'
            /\ afjp_amount * Storage.juventud_token.exchange_rate info <= MAX_U64
            /\ juventud_balance s' user
               = juventud_balance s user
                 + afjp_amount * Storage.juventud_token.exchange_rate info
            /\ Storage.juventud_token.total_supply info'
               = Storage.juventud_token.total_supply info
                 + afjp_amount * Storage.juventud_token.exchange_rate info
            /\ Storage.juventud_token.exchange_rate info'
               = Storage.juventud_token.exchange_rate info).
  { refine (post_committed _ (fun _ s' => _) _ _ _ _ Hrun).
    unfold juventud_token.burn_afjp_for_juventud, juventud_token.assert_,
      juventud_token.get_admin_address, afjp_token.get_balance,
      afjp_token.burn, afjp_token.assert_, afjp_token.get_admin_address,
      coin.withdraw, coin.deposit, juventud_balance.
    msteps; try done.
    eexists _, _. rewrite !lookup_insert_eq.
    split_and!; try eassumption; reflexivity. }
  destruct Hfacts as (info & info' & Hi & Hi' & Hfit & Hbal & Hsupply & Hrate).
  exists (afjp_amount * Storage.juventud_token.exchange_rate info), info, info'.
  split_and!; try done.
  destruct (post_commits
    (juventud_token.calculate_juventud_for_afjp afjp_crypto afjp_amount)
    (fun q s1 => q = afjp_amount * Storage.juventud_token.exchange_rate info /\ s1 = s) s)
    as (q & s1 & Hq & -> & ->); [|done].
  unfold juventud_token.calculate_juventud_for_afjp, juventud_token.get_admin_address.
  msteps; try done; lia.
Qed.

Lemma quote_matches_conversion_witness :
  juventud_token.burn_afjp_for_juventud the_admin alice 100 (final convertible_run)
  = Ok (tt, final converted_run)
  /\ exists quote info info',
       juventud_token.calculate_juventud_for_afjp the_admin 100 (final convertible_run)
       = Ok (quote, final convertible_run)
       /\ juventud_balance (final converted_run) alice
          = juventud_balance (final convertible_run) alice + quote
       /\ view Res.juventud_TokenInfo (final convertible_run) !! the_admin = Some info
       /\ view Res.juventud_TokenInfo (final converted_run) !! the_admin = Some info'
       /\ quote = 100 * Storage.juventud_token.exchange_rate info
       /\ Storage.juventud_token.total_supply info'
          = Storage.juventud_token.total_supply info + quote
       /\ Storage.juventud_token.exchange_rate info'
          = Storage.juventud_token.exchange_rate info.
Proof.
  assert (Hrun : juventud_token.burn_afjp_for_juventud the_admin alice 100
                   (final convertible_run) = Ok (tt, final converted_run))
    by (vm_compute; reflexivity).
  exact (conj Hrun (quote_matches_conversion the_admin alice 100 _ _ Hrun)).
Defined.

(** X13.  [update_exchange_rate] by the account that holds the derived
    token's [TokenInfo]: a rate of 0 aborts with [E_INVALID_AMOUNT], so a
    stored rate is never replaced by 0; a positive rate is stored, the
    three counters are left alone and an [ExchangeRateUpdatedEvent] records
    the old and the new rate.  An account with no [TokenInfo] of its own
    gets [E_NOT_INITIALIZED]. *)
Theorem update_exchange_rate_sets_the_rate (admin : address) (new_rate : Z) (s : State) :
  (view Res.juventud_TokenInfo s !! admin = None ->
   juventud_token.update_exchange_rate admin new_rate s
   = Err (Abort at_juventud_token juventud_token.E_NOT_INITIALIZED))
  /\ (forall info,
        view Res.juventud_TokenInfo s !! admin = Some info ->
        Storage.juventud_token.admin info = admin ->
        new_rate <= 0 ->
        juventud_token.update_exchange_rate admin new_rate s
        = Err (Abort at_juventud_token juventud_token.E_INVALID_AMOUNT))
  /\ (forall info events,
        view Res.juventud_TokenInfo s !! admin = Some info ->
        Storage.juventud_token.admin info = admin ->
        view Res.juventud_TokenEvents s !! admin = Some events ->
        0 < new_rate ->
        exists s' events',
          juventud_token.update_exchange_rate admin new_rate s = Ok (tt, s')
          /\ view Res.juventud_TokenInfo s'
             = <[admin := juventud_token.set_exchange_rate new_rate info]>
                 (view Res.juventud_TokenInfo s)
          /\ view Res.juventud_TokenEvents s'
             = <[admin := events']> (view Res.juventud_TokenEvents s)
          /\ Storage.juventud_token.exchange_rate_updated_events events'
             = Storage.juventud_token.exchange_rate_updated_events events
               ++ [Storage.juventud_token.exchange_rate_updated_event
                     (Storage.juventud_token.exchange_rate info) new_rate
                     (Storage.clock s)]
          /\ Storage.coins s' = Storage.coins s).
Proof.
  assert (Haborts : forall (m : M unit) e,
            post m (fun _ _ => False) (fun e' => e' = e) s -> m s = Err e).
  { intros m e Hpost. unfold post in Hpost.
    destruct (m s) as [[[] ?]|e']; [done | by subst]. }
  split_and!.
  - intros Hnone. apply Haborts.
    unfold juventud_token.update_exchange_rate, juventud_token.assert_.
    msteps; done.
  - intros info Hinfo Hadmin Hrate. apply Haborts.
    unfold juventud_token.update_exchange_rate, juventud_token.assert_.
    msteps; try done; try lia.
    match goal with H : bool_decide _ = false |- _ =>
      apply bool_decide_eq_false in H end. done.
  - intros info events Hinfo Hadmin Hevents Hrate.
    destruct (post_commits (juventud_token.update_exchange_rate admin new_rate)
      (fun _ s' =>
         exists events',
           view Res.juventud_TokenInfo s'
           = <[admin := juventud_token.set_exchange_rate new_rate info]>
               (view Res.juventud_TokenInfo s)
           /\ view Res.juventud_TokenEvents s'
              = <[admin := events']> (view Res.juventud_TokenEvents s)
           /\ Storage.juventud_token.exchange_rate_updated_events events'
              = Storage.juventud_token.exchange_rate_updated_events events
                ++ [Storage.juventud_token.exchange_rate_updated_event
                      (Storage.juventud_token.exchange_rate info) new_rate
                      (Storage.clock s)]
           /\ Storage.coins s' = Storage.coins s) s)
      as ([] & s' & Hrun & events' & HQ).
    { unfold juventud_token.update_exchange_rate, juventud_token.assert_.
      msteps; try done; try lia.
      - eexists. split_and!; reflexivity.
      - match goal with H : bool_decide _ = false |- _ =>
          apply bool_decide_eq_false in H end. done. }
    exists s', events'. by split.
Qed.

Lemma update_exchange_rate_sets_the_rate_witness :
  exists info events,
    view Res.juventud_TokenInfo (final deploy) !! the_admin = Some info
    /\ Storage.juventud_token.admin info = the_admin
    /\ view Res.juventud_TokenEvents (final deploy) !! the_admin = Some events
    /\ 0 < 25
    /\ exists s' events',
         juventud_token.update_exchange_rate the_admin 25 (final deploy) = Ok (tt, s')
         /\ view Res.juventud_TokenInfo s'
            = <[the_admin := juventud_token.set_exchange_rate 25 info]>
                (view Res.juventud_TokenInfo (final deploy))
         /\ view Res.juventud_TokenEvents s'
            = <[the_admin := events']> (view Res.juventud_TokenEvents (final deploy))
         /\ Storage.juventud_token.exchange_rate_updated_events events'
            = Storage.juventud_token.exchange_rate_updated_events events
              ++ [Storage.juventud_token.exchange_rate_updated_event
                    (Storage.juventud_token.exchange_rate info) 25
                    (Storage.clock (final deploy))]
         /\ Storage.coins s' = Storage.coins (final deploy).
Proof.
  eexists _, _.
  assert (Hinfo : view Res.juventud_TokenInfo (final deploy) !! the_admin = Some _)
    by (vm_compute; reflexivity).
  assert (Hevents : view Res.juventud_TokenEvents (final deploy) !! the_admin = Some _)
    by (vm_compute; reflexivity).
  refine ((fun Hadmin Hrate =>
             conj Hinfo (conj Hadmin (conj Hevents (conj Hrate
               (proj2 (proj2 (update_exchange_rate_sets_the_rate the_admin 25
                                (final deploy)))
                  _ _ Hinfo Hadmin Hevents Hrate))))) _ _).
  - vm_compute; reflexivity.
  - vm_compute; reflexivity.
Defined.

(** X14.  A committed [apply_rental_discount] has burned exactly the
    discount [rental_amount * discount_percentage / 100] from the user's
    JUVENTUD and nothing else: the discount is at most half the rent and
    at most [max_discount_per_transaction], the AFJP coins and the derived
    token's [TokenInfo] (its [total_burned] included) are untouched,
    [total_discounts_applied] grows by the discount, and a user's first
    discount is recorded at tier 0 whatever its size. *)
Theorem rental_discount_burns_the_discount (afjp_crypto user : address)
    (rental_amount discount_percentage : Z) (s s' : State) :
  juventud_token.apply_rental_discount afjp_crypto user rental_amount
    discount_percentage s = Ok (tt, s') ->
  0 < rental_amount
  /\ 0 < discount_percentage <= juventud_token.MAX_DISCOUNT_PERCENTAGE
  /\ 2 * (rental_amount * discount_percentage / 100) <= rental_amount
  /\ rental_amount * discount_percentage / 100 <= juventud_balance s user
  /\ view Res.JuventudToken_store s'
     = <[user := juventud_balance s user - rental_amount * discount_percentage / 100]>
         (view Res.JuventudToken_store s)
  /\ view Res.AFJPToken_store s' = view Res.AFJPToken_store s
  /\ view Res.juventud_TokenInfo s' = view Res.juventud_TokenInfo s
  /\ (exists system system',
        view Res.DiscountSystem s !! afjp_crypto = Some system
        /\ view Res.DiscountSystem s' !! afjp_crypto = Some system'
        /\ rental_amount * discount_percentage / 100
           <= Storage.juventud_token.max_discount_per_transaction system
        /\ Storage.juventud_token.total_discounts_applied system'
           = Storage.juventud_token.total_discounts_applied system
             + rental_amount * discount_percentage / 100)
  /\ (view Res.UserDiscountInfo s !! user = None ->
      view Res.UserDiscountInfo s' !! user
      = Some {| Storage.juventud_token.total_discounts_used :=
                  rental_amount * discount_percentage / 100;
                Storage.juventud_token.last_discount_time := Storage.clock s;
                Storage.juventud_token.discount_tier := 0 |}).
Proof.
  intros Hrun.
  refine (post_committed _ (fun _ s' => _) _ _ _ _ Hrun).
  unfold juventud_token.apply_rental_discount, juventud_token.assert_,
    juventud_token.get_admin_address, coin.withdraw, juventud_balance.
  msteps; try done.
  all: rewrite ?lookup_insert_eq.
  all: assert (Hhalf : 2 * (rental_amount * discount_percentage / 100) <= rental_amount)
         by (pose proof (Z.mul_div_le (rental_amount * discount_percentage) 100 eq_refl);
             unfold juventud_token.MAX_DISCOUNT_PERCENTAGE in *; nia).
  all: split_and!; try done; try lia; try (intros; congruence).
  all: eexists _, _; split_and!; try done; try reflexivity; lia.
Qed.

Lemma rental_discount_burns_the_discount_witness :
  juventud_token.apply_rental_discount the_admin alice 1000 50 (final converted_run)
  = Ok (tt, final discounted_run)
  /\ view Res.JuventudToken_store (final discounted_run)
     = <[alice := juventud_balance (final converted_run) alice - 1000 * 50 / 100]>
         (view Res.JuventudToken_store (final converted_run))
  /\ view Res.juventud_TokenInfo (final discounted_run)
     = view Res.juventud_TokenInfo (final converted_run).
Proof.
  assert (Hrun : juventud_token.apply_rental_discount the_admin alice 1000 50
                   (final converted_run) = Ok (tt, final discounted_run))
    by (vm_compute; reflexivity).
  destruct (rental_discount_burns_the_discount the_admin alice 1000 50 _ _ Hrun)
    as (_ & _ & _ & _ & Hstore & _ & Hinfo & _).
  exact (conj Hrun (conj Hstore Hinfo)).
Defined.

(** ** Creating a vesting schedule *)

(** X15.  [create_vesting_schedule] takes the coins and keeps only totals:
    with a positive amount the creator's balance covers, the pool and its
    event store existing and no [u64] overflowing, it commits, moves
    [amount] AFJP from the creator to the package address, raises
    [total_vested] by [amount] and [schedule_count] by 1, leaves
    [total_released] alone and emits a [ScheduleCreatedEvent] whose cliff
    and end are the clock plus one and five years; no schedule is stored,
    so [has_vesting_schedule] is false and the releasable amount 0 for the
    beneficiary right after.  An amount of 0 is [E_INVALID_AMOUNT]; a
    missing pool is [E_NOT_INITIALIZED]; an insufficient balance is
    [E_INSUFFICIENT_BALANCE]. *)
Theorem create_vesting_schedule_escrows (afjp_crypto creator beneficiary : address)
    (amount : Z) (s : State) :
  (amount <= 0 ->
   afjp_vesting.create_vesting_schedule afjp_crypto creator beneficiary amount s
   = Err (Abort at_afjp_vesting afjp_vesting.E_INVALID_AMOUNT))
  /\ (0 < amount ->
      view Res.VestingPool s !! afjp_crypto = None ->
      afjp_vesting.create_vesting_schedule afjp_crypto creator beneficiary amount s
      = Err (Abort at_afjp_vesting afjp_vesting.E_NOT_INITIALIZED))
  /\ (forall pool,
        0 < amount ->
        view Res.VestingPool s !! afjp_crypto = Some pool ->
        afjp_balance s creator < amount ->
        afjp_vesting.create_vesting_schedule afjp_crypto creator beneficiary amount s
        = Err (Abort at_afjp_vesting afjp_vesting.E_INSUFFICIENT_BALANCE))
  /\ (forall pool events,
        0 < amount ->
        view Res.VestingPool s !! afjp_crypto = Some pool ->
        view Res.VestingEvents s !! afjp_crypto = Some events ->
        amount <= afjp_balance s creator ->
        creator <> afjp_crypto ->
        afjp_balance s afjp_crypto + amount <= MAX_U64 ->
        Storage.clock s + afjp_vesting.VESTING_DURATION_SECONDS <= MAX_U64 ->
        Storage.afjp_vesting.total_vested pool + amount <= MAX_U64 ->
        Storage.afjp_vesting.schedule_count pool + 1 <= MAX_U64 ->
        exists s' pool' events',
          afjp_vesting.create_vesting_schedule afjp_crypto creator beneficiary amount s
          = Ok (tt, s')
          /\ afjp_balance s' creator = afjp_balance s creator - amount
          /\ afjp_balance s' afjp_crypto = afjp_balance s afjp_crypto + amount
          /\ view Res.VestingPool s' = <[afjp_crypto := pool']> (view Res.VestingPool s)
          /\ Storage.afjp_vesting.total_vested pool'
             = Storage.afjp_vesting.total_vested pool + amount
          /\ Storage.afjp_vesting.schedule_count pool'
             = Storage.afjp_vesting.schedule_count pool + 1
          /\ Storage.afjp_vesting.total_released pool'
             = Storage.afjp_vesting.total_released pool
          /\ view Res.VestingEvents s'
             = <[afjp_crypto := events']> (view Res.VestingEvents s)
          /\ Storage.afjp_vesting.schedule_created_events events'
             = Storage.afjp_vesting.schedule_created_events events
               ++ [Storage.afjp_vesting.schedule_created_event beneficiary amount
                     (Storage.clock s)
                     (Storage.clock s + afjp_vesting.CLIFF_DURATION_SECONDS)
                     (Storage.clock s + afjp_vesting.VESTING_DURATION_SECONDS)
                     creator]
          /\ afjp_vesting.has_vesting_schedule beneficiary = false
          /\ afjp_vesting.get_releasable_amount beneficiary = 0).
Proof.
  assert (Haborts : forall (m : M unit) e,
            post m (fun _ _ => False) (fun e' => e' = e) s -> m s = Err e).
  { intros m e Hpost. unfold post in Hpost.
    destruct (m s) as [[[] ?]|e']; [done | by subst]. }
  unfold afjp_balance.
  split_and!.
  - intros Hzero. apply Haborts.
    unfold afjp_vesting.create_vesting_schedule, afjp_vesting.assert_.
    mstep. mstep. mstep. mstep; [lia|done].
  - intros Hpos Hnone. apply Haborts.
    unfold afjp_vesting.create_vesting_schedule, afjp_vesting.assert_,
      afjp_vesting.get_admin_address.
    mstep. mstep. mstep. mstep; [|lia]. mstep. mstep. mstep. mstep; done.
  - intros pool Hpos Hpool Hbal. apply Haborts.
    unfold afjp_vesting.create_vesting_schedule, afjp_vesting.assert_,
      afjp_vesting.get_admin_address, afjp_token.get_balance.
    mstep. mstep. mstep. mstep; [|lia]. mstep. mstep. mstep. mstep; [|done].
    mstep. mstep. mstep. mstep; [lia|done].
  - intros pool events Hpos Hpool Hevents Hbal Hne Hadmin Hend Hvested Hcount.
    destruct (post_commits
      (afjp_vesting.create_vesting_schedule afjp_crypto creator beneficiary amount)
      (fun _ s' =>
         exists pool' events',
           default 0 (view Res.AFJPToken_store s' !! creator)
           = default 0 (view Res.AFJPToken_store s !! creator) - amount
           /\ default 0 (view Res.AFJPToken_store s' !! afjp_crypto)
              = default 0 (view Res.AFJPToken_store s !! afjp_crypto) + amount
           /\ view Res.VestingPool s' = <[afjp_crypto := pool']> (view Res.VestingPool s)
           /\ Storage.afjp_vesting.total_vested pool'
              = Storage.afjp_vesting.total_vested pool + amount
           /\ Storage.afjp_vesting.schedule_count pool'
              = Storage.afjp_vesting.schedule_count pool + 1
           /\ Storage.afjp_vesting.total_released pool'
              = Storage.afjp_vesting.total_released pool
           /\ view Res.VestingEvents s'
              = <[afjp_crypto := events']> (view Res.VestingEvents s)
           /\ Storage.afjp_vesting.schedule_created_events events'
              = Storage.afjp_vesting.schedule_created_events events
                ++ [Storage.afjp_vesting.schedule_created_event beneficiary amount
                      (Storage.clock s)
                      (Storage.clock s + afjp_vesting.CLIFF_DURATION_SECONDS)
                      (Storage.clock s + afjp_vesting.VESTING_DURATION_SECONDS)
                      creator]) s)
      as ([] & s' & Hrun & pool' & events' & HQ).
    { unfold afjp_vesting.create_vesting_schedule, afjp_vesting.assert_,
        afjp_vesting.get_admin_address, afjp_token.get_balance,
        coin.transfer, coin.withdraw, coin.deposit.
      msteps; try done; try lia.
      all: try (unfold afjp_vesting.CLIFF_DURATION_SECONDS,
                  afjp_vesting.VESTING_DURATION_SECONDS in *; lia).
      all: try (match goal with H : MAX_U64 < _ |- _ =>
                  rewrite lookup_insert_ne in H by done; lia end).
      eexists _, _.
      repeat (rewrite lookup_insert_eq || rewrite lookup_insert_ne by done).
      cbn [default]. split_and!; reflexivity. }
    exists s', pool', events'. split; [exact Hrun|].
    destruct HQ as (? & ? & ? & ? & ? & ? & ? & ?). split_and!; done.
Qed.

Lemma create_vesting_schedule_escrows_witness :
  exists pool events,
    0 < 5000
    /\ view Res.VestingPool (final funded_run) !! the_admin = Some pool
    /\ view Res.VestingEvents (final funded_run) !! the_admin = Some events
    /\ 5000 <= afjp_balance (final funded_run) alice
    /\ alice <> the_admin
    /\ exists s',
         afjp_vesting.create_vesting_schedule the_admin alice bob 5000 (final funded_run)
         = Ok (tt, s')
         /\ afjp_balance s' alice = afjp_balance (final funded_run) alice - 5000
         /\ afjp_balance s' the_admin = afjp_balance (final funded_run) the_admin + 5000.
Proof.
  eexists _, _.
  assert (Hpool : view Res.VestingPool (final funded_run) !! the_admin = Some _)
    by (vm_compute; reflexivity).
  assert (Hevents : view Res.VestingEvents (final funded_run) !! the_admin = Some _)
    by (vm_compute; reflexivity).
  assert (Hpos : 0 < 5000) by reflexivity.
  assert (Hbal : 5000 <= afjp_balance (final funded_run) alice)
    by (vm_compute; discriminate).
  assert (Hne : alice <> the_admin) by (vm_compute; discriminate).
  destruct (proj2 (proj2 (proj2 (create_vesting_schedule_escrows the_admin alice bob 5000
                                   (final funded_run))))
              _ _ Hpos Hpool Hevents Hbal Hne)
    as (s' & pool' & events' & Hrun & Hcreator & Hadmin & _);
    try (vm_compute; discriminate).
  split; [exact Hpos|]. split; [exact Hpool|]. split; [exact Hevents|].
  split; [exact Hbal|]. split; [exact Hne|].
  exists s'. exact (conj Hrun (conj Hcreator Hadmin)).
Defined.

(** ** The circulating supply *)

Lemma sum_balances_non_negative (m : gmap address Z) :
  map_Forall (fun _ v => 0 <= v) m -> 0 <= sum_balances m.
Proof.
  unfold sum_balances.
  apply (map_fold_weak_ind
           (fun r m => map_Forall (fun _ v => 0 <= v) m -> 0 <= r)); [done|].
  intros i x m' r Hi IH Hall.
  apply map_Forall_insert in Hall as [Hx Hall]; [|done].
  specialize (IH Hall). lia.
Qed.

Lemma held_non_negative (m : gmap address Z) (k : address) :
  map_Forall (fun _ v => 0 <= v) m -> 0 <= default 0 (m !! k).
Proof.
  intros Hall. destruct (m !! k) as [v|] eqn:Hk; cbn; [|done]. exact (Hall _ _ Hk).
Qed.

Lemma token_call_keeps_balances_non_negative afjp_crypto c s :
  balances_non_negative s ->
  post (run_token_call afjp_crypto c)
    (fun _ s' => balances_non_negative s') (fun _ => True) s.
Proof.
  unfold balances_non_negative. intros Hs.
  destruct c as [admin|admin recipient amount|account amount|from to amount];
    cbn [run_token_call].
  - unfold afjp_token.initialize, afjp_token.assert_, coin.initialize.
    msteps; done.
  - unfold afjp_token.mint, afjp_token.assert_, coin.deposit.
    msteps; try done.
    apply map_Forall_insert_2; [|done].
    pose proof (held_non_negative _ recipient Hs). lia.
  - unfold afjp_token.burn, afjp_token.assert_, afjp_token.get_admin_address,
      coin.withdraw.
    msteps; try done.
    apply map_Forall_insert_2; [lia|done].
  - unfold afjp_token.transfer, afjp_token.assert_, afjp_token.get_admin_address,
      coin.transfer, coin.withdraw, coin.deposit.
    msteps; try done.
    all: assert (Hdebited :
           map_Forall (fun _ v => 0 <= v)
             (<[from := default 0 (view Res.AFJPToken_store s !! from) - amount]>
                (view Res.AFJPToken_store s)))
           by (apply map_Forall_insert_2; [lia|done]).
    all: apply map_Forall_insert_2; [|done].
    all: pose proof (held_non_negative _ to Hdebited); lia.
Qed.

(** X16.  [get_circulating_supply] reports what the holders own: from a
    storage whose counters agree with its non-negative balances (as
    [genesis]), after any sequence of [initialize], [mint], [burn] and
    [transfer] calls it commits, without underflow, and returns the sum of
    all AFJP balances. *)
Theorem circulating_supply_is_the_sum_of_balances (afjp_crypto : address)
    (calls : list token_call) (s : State) :
  ledger_consistent afjp_crypto s ->
  balances_non_negative s ->
  let s' := foldl (fun s c => commit_or_revert (run_token_call afjp_crypto c) s) s calls in
  afjp_token.get_circulating_supply afjp_crypto s'
  = Ok (sum_balances (view Res.AFJPToken_store s'), s').
Proof.
  intros Hs Hnn. cbn zeta.
  assert (Hend : ledger_consistent afjp_crypto
                   (foldl (fun s c => commit_or_revert (run_token_call afjp_crypto c) s)
                      s calls)
                 /\ balances_non_negative
                      (foldl (fun s c => commit_or_revert (run_token_call afjp_crypto c) s)
                         s calls)).
  { revert s Hs Hnn.
    induction calls as [|c calls IH]; intros s Hs Hnn; cbn; [done|].
    pose proof (token_call_keeps_ledger_consistent afjp_crypto c s Hs) as Hpost.
    pose proof (token_call_keeps_balances_non_negative afjp_crypto c s Hnn) as Hpost'.
    unfold post in Hpost, Hpost'. unfold commit_or_revert.
    destruct (run_token_call afjp_crypto c s) as [[[] s']|e]; by apply IH. }
  destruct Hend as [[_ Hsum] Hend].
  set (s' := foldl _ s calls) in *.
  pose proof (sum_balances_non_negative _ Hend) as Hpos.
  destruct (post_commits (afjp_token.get_circulating_supply afjp_crypto)
              (fun r s1 => r = sum_balances (view Res.AFJPToken_store s') /\ s1 = s') s')
    as (r & s1 & Hrun & -> & ->); [|done].
  unfold afjp_token.get_circulating_supply, afjp_token.get_total_supply,
    afjp_token.get_burned_amount, afjp_token.get_admin_address.
  msteps.
  all: repeat match goal with
         | H : view Res.token_TokenInfo _ !! _ = _ |- _ => rewrite H in Hsum; clear H
         end.
  all: try (split; [lia|reflexivity]).
  all: lia.
Qed.

Lemma genesis_balances_non_negative : balances_non_negative genesis.
Proof.
  intros k v Hk.
  change (view Res.AFJPToken_store genesis) with (∅ : gmap address Z) in Hk.
  by rewrite lookup_empty in Hk.
Qed.

Lemma circulating_supply_is_the_sum_of_balances_witness :
  ledger_consistent the_admin genesis
  /\ balances_non_negative genesis
  /\ exists s',
       s' = foldl (fun s c => commit_or_revert (run_token_call the_admin c) s) genesis
              [call_token_initialize the_admin; call_mint the_admin alice 1000;
               call_transfer alice bob 300; call_burn bob 100]
       /\ afjp_token.get_circulating_supply the_admin s'
          = Ok (sum_balances (view Res.AFJPToken_store s'), s').
Proof.
  refine (conj (genesis_ledger_consistent the_admin)
            (conj genesis_balances_non_negative (ex_intro _ _ (conj eq_refl _)))).
  exact (circulating_supply_is_the_sum_of_balances the_admin _ genesis
           (genesis_ledger_consistent the_admin) genesis_balances_non_negative).
Defined.

(** * The storages the program can reach *)


(** ** No module but the staking pool touches a rate or a checkpoint *)









(** ** No call loses track of a coin *)











(** ** The runs are reachable *)






(** ** What a reachable ledger holds *)





(** ** The primary token's [transfer] *)




(** ** The staking pool in the storages the program can reach *)










